(** * A to-do list manager: task records and the collection manager

    Shallow embedding of [src/todo.py]: the class [TodoItem] (constructor,
    [to_dict], [from_dict]) and the class [TodoManager] ([load_todos],
    [save_todos], [add_todo], [list_todos], [complete_todo], [remove_todo],
    [get_todo], [clear_completed], [edit_todo]) and the input helper
    [get_valid_input].

    Python is dynamically typed and the source checks no types, so the
    attributes of a [TodoItem] hold arbitrary Python values.  The values
    modelled are those [json.load] returns, without floating-point numbers:
    [None], [bool], [int], [str], [list] and [dict] with [str] keys.  A
    [str] is a Rocq [string], one [ascii] per character. *)

From Stdlib Require Import ZArith List Bool Lia.
From stdpp Require Import base option list strings gmap.

#[local] Set Warnings "-register-all".
#[local] Open Scope Z_scope.

(** ** Python values *)

Inductive pyval :=
| VNone
| VBool (b : bool)
| VInt (z : Z)
| VStr (s : string)
| VList (l : list pyval)
| VDict (d : gmap string pyval).

(** The exceptions the modelled code can raise. *)
Inductive exn :=
| KeyError (key : string)
| TypeError
| JSONDecodeError.

Inductive exc (A : Type) :=
| Ok (a : A)
| Raise (e : exn).
Arguments Ok {A} a.
Arguments Raise {A} e.

#[export] Instance exc_ret : MRet exc := fun _ a => Ok a.
#[export] Instance exc_bind : MBind exc := fun _ _ f m =>
  match m with
  | Ok a => f a
  | Raise e => Raise e
  end.

(** [bool(v)]: the truth value of an object. *)
Definition truthy (v : pyval) : bool :=
  match v with
  | VNone => false
  | VBool b => b
  | VInt z => negb (z =? 0)
  | VStr s => negb (String.eqb s "")
  | VList l => match l with [] => false | _ :: _ => true end
  | VDict d => negb (Nat.eqb (size d) 0)
  end.

(** [a == b].  [bool] is a subclass of [int], so [True == 1]. *)
Fixpoint py_eq (a b : pyval) {struct a} : bool :=
  match a, b with
  | VNone, VNone => true
  | VBool x, VBool y => Z.b2z x =? Z.b2z y
  | VBool x, VInt y => Z.b2z x =? y
  | VInt x, VBool y => x =? Z.b2z y
  | VInt x, VInt y => x =? y
  | VStr s, VStr t => String.eqb s t
  | VList l, VList m =>
      (fix go (l m : list pyval) {struct l} : bool :=
         match l, m with
         | [], [] => true
         | x :: l', y :: m' => py_eq x y && go l' m'
         | _, _ => false
         end) l m
  | VDict d, VDict e =>
      Nat.eqb (size d) (size e) &&
      map_fold (fun k v acc =>
                  acc && match e !! k with
                         | Some w => py_eq v w
                         | None => false
                         end) true d
  | _, _ => false
  end.

(** [a > b]: numbers by value, strings and lists lexicographically, and
    [TypeError] for every other pair of types. *)
Fixpoint py_gt (a b : pyval) {struct a} : exc bool :=
  match a, b with
  | VBool x, VBool y => Ok (Z.b2z x >? Z.b2z y)
  | VBool x, VInt y => Ok (Z.b2z x >? y)
  | VInt x, VBool y => Ok (x >? Z.b2z y)
  | VInt x, VInt y => Ok (x >? y)
  | VStr s, VStr t => Ok (String.ltb t s)
  | VList l, VList m =>
      (fix go (l m : list pyval) {struct l} : exc bool :=
         match l, m with
         | x :: l', y :: m' => if py_eq x y then go l' m' else py_gt x y
         | _ :: _, [] => Ok true
         | [], _ => Ok false
         end) l m
  | _, _ => Raise TypeError
  end.

(** [a + b]. *)
Definition py_add (a b : pyval) : exc pyval :=
  match a, b with
  | VBool x, VBool y => Ok (VInt (Z.b2z x + Z.b2z y))
  | VBool x, VInt y => Ok (VInt (Z.b2z x + y))
  | VInt x, VBool y => Ok (VInt (x + Z.b2z y))
  | VInt x, VInt y => Ok (VInt (x + y))
  | VStr s, VStr t => Ok (VStr (s ++ t))
  | VList l, VList m => Ok (VList (l ++ m))
  | _, _ => Raise TypeError
  end.

(** The loop of the built-in [max]: the running maximum is replaced by an
    item only when [item > maxitem]. *)
Fixpoint max_loop (maxitem : pyval) (rest : list pyval) : exc pyval :=
  match rest with
  | [] => Ok maxitem
  | item :: rest' =>
      g ← py_gt item maxitem;
      max_loop (if g : bool then item else maxitem) rest'
  end.

(** [max(l, default=default)]. *)
Definition py_max (l : list pyval) (default : pyval) : exc pyval :=
  match l with
  | [] => Ok default
  | x :: rest => max_loop x rest
  end.

(** [data[key]] for a [str] key: only a [dict] can be subscripted with a
    string. *)
Definition py_getitem (data : pyval) (key : string) : exc pyval :=
  match data with
  | VDict d =>
      match d !! key with
      | Some v => Ok v
      | None => Raise (KeyError key)
      end
  | _ => Raise TypeError
  end.

(** The items [for item in data] runs through: the elements of a list, the
    keys of a dict (their order is not modelled), the characters of a
    string; other values are not iterable. *)
Definition py_iter (data : pyval) : exc (list pyval) :=
  match data with
  | VList l => Ok l
  | VDict d => Ok (VStr <$> (map_to_list d).*1)
  | VStr s => Ok ((fun c => VStr (String c EmptyString)) <$> String.list_ascii_of_string s)
  | _ => Raise TypeError
  end.

(** ** class TodoItem *)

Record TodoItem := mkTodoItem {
  id : pyval;
  description : pyval;
  completed : pyval;
  created_at : pyval
}.

(** [TodoItem.__init__].  [now] is what [datetime.now().isoformat()]
    returns at the call; it is used when [created_at] is falsy.  The
    defaults [completed=False] and [created_at=None] are passed by the
    callers. *)
Definition TodoItem_init (now : string) (id description completed created_at : pyval)
  : TodoItem :=
  {| id := id;
     description := description;
     completed := completed;
     created_at := if truthy created_at then created_at else VStr now |}.

Definition to_dict (self : TodoItem) : gmap string pyval :=
  <["id" := id self]>
    (<["description" := description self]>
       (<["completed" := completed self]>
          (<["created_at" := created_at self]> ∅))).

Definition from_dict (now : string) (data : pyval) : exc TodoItem :=
  i ← py_getitem data "id";
  d ← py_getitem data "description";
  c ← py_getitem data "completed";
  t ← py_getitem data "created_at";
  Ok (TodoItem_init now i d c t).

(** ** class TodoManager *)

(** What is stored under [self.filename], as [load_todos] sees it: no file
    ([os.path.exists] is false), a file on which [json.load] raises
    [JSONDecodeError] (an empty file is one), or a file that [json.load]
    decodes to a value.  [json.dump] followed by [json.load] gives back the
    value written, so a written file is the document it holds.  Failures of
    [open] itself are not modelled, and neither are files on which reading
    fails with another exception than [JSONDecodeError] (bytes that are not
    UTF-8, a text nested too deep for the decoder): [load_todos] does not
    catch those. *)
Inductive storage :=
| Missing
| Unparsable
| Document (data : pyval).

(** A manager: the list [self.todos] and the content of its file. *)
Record TodoManager := mkTodoManager {
  todos : list TodoItem;
  file : storage
}.

Definition set_todos (self : TodoManager) (l : list TodoItem) : TodoManager :=
  {| todos := l; file := file self |}.

(** [[TodoItem.from_dict(item) for item in data]]: the records are built in
    order and the first exception ends the comprehension.  [clock i] is the
    reading of [datetime.now().isoformat()] while record [i] is built. *)
Fixpoint from_dict_all (clock : nat -> string) (i : nat) (items : list pyval)
  : exc (list TodoItem) :=
  match items with
  | [] => Ok []
  | item :: items' =>
      todo ← from_dict (clock i) item;
      rest ← from_dict_all clock (S i) items';
      Ok (todo :: rest)
  end.

Definition load_todos (clock : nat -> string) (self : TodoManager) : exc TodoManager :=
  match file self with
  | Missing => Ok self
  | Unparsable => Ok (set_todos self [])
  | Document data =>
      match items ← py_iter data; from_dict_all clock 0 items with
      | Ok l => Ok (set_todos self l)
      | Raise JSONDecodeError | Raise (KeyError _) => Ok (set_todos self [])
      | Raise e => Raise e
      end
  end.

(** [TodoManager.__init__] on a given content of the file. *)
Definition TodoManager_init (clock : nat -> string) (disk : storage) : exc TodoManager :=
  load_todos clock {| todos := []; file := disk |}.

(** The value [save_todos] hands to [json.dump]. *)
Definition dump (l : list TodoItem) : pyval :=
  VList ((fun todo => VDict (to_dict todo)) <$> l).

Definition save_todos (self : TodoManager) : TodoManager :=
  {| todos := todos self; file := Document (dump (todos self)) |}.

Definition add_todo (now : string) (description : string) (self : TodoManager)
  : exc (TodoItem * TodoManager) :=
  m ← py_max (id <$> todos self) (VInt 0);
  new_id ← py_add m (VInt 1);
  let todo := TodoItem_init now new_id (VStr description) (VBool false) VNone in
  Ok (todo, save_todos (set_todos self (todos self ++ [todo]))).

Definition list_todos (show_completed : bool) (self : TodoManager) : list TodoItem :=
  if show_completed then todos self
  else List.filter (fun todo => negb (truthy (completed todo))) (todos self).

(** [todo.completed = True] *)
Definition set_completed (todo : TodoItem) (v : pyval) : TodoItem :=
  {| id := id todo; description := description todo;
     completed := v; created_at := created_at todo |}.

(** [todo.description = new_description] *)
Definition set_description (todo : TodoItem) (v : pyval) : TodoItem :=
  {| id := id todo; description := v;
     completed := completed todo; created_at := created_at todo |}.

(** The loop of [complete_todo]: [Some l] when a record matched, with [l]
    the list after the assignment; [None] when the loop ran to its end. *)
Fixpoint complete_loop (todo_id : Z) (l : list TodoItem) : option (list TodoItem) :=
  match l with
  | [] => None
  | todo :: rest =>
      if py_eq (id todo) (VInt todo_id)
      then Some (set_completed todo (VBool true) :: rest)
      else (todo ::.) <$> complete_loop todo_id rest
  end.

Definition complete_todo (todo_id : Z) (self : TodoManager) : bool * TodoManager :=
  match complete_loop todo_id (todos self) with
  | Some l => (true, save_todos (set_todos self l))
  | None => (false, self)
  end.

(** The loop of [remove_todo]: [del self.todos[i]] at the first match. *)
Fixpoint remove_loop (todo_id : Z) (l : list TodoItem) : option (list TodoItem) :=
  match l with
  | [] => None
  | todo :: rest =>
      if py_eq (id todo) (VInt todo_id)
      then Some rest
      else (todo ::.) <$> remove_loop todo_id rest
  end.

Definition remove_todo (todo_id : Z) (self : TodoManager) : bool * TodoManager :=
  match remove_loop todo_id (todos self) with
  | Some l => (true, save_todos (set_todos self l))
  | None => (false, self)
  end.

Fixpoint get_todo_loop (todo_id : Z) (l : list TodoItem) : option TodoItem :=
  match l with
  | [] => None
  | todo :: rest =>
      if py_eq (id todo) (VInt todo_id) then Some todo
      else get_todo_loop todo_id rest
  end.

Definition get_todo (todo_id : Z) (self : TodoManager) : option TodoItem :=
  get_todo_loop todo_id (todos self).

Definition clear_completed (self : TodoManager) : Z * TodoManager :=
  let initial_count := Z.of_nat (length (todos self)) in
  let self' :=
    set_todos self
      (List.filter (fun todo => negb (truthy (completed todo))) (todos self)) in
  let removed_count := initial_count - Z.of_nat (length (todos self')) in
  if removed_count >? 0
  then (removed_count, save_todos self')
  else (removed_count, self').

(** The loop of [edit_todo]. *)
Fixpoint edit_loop (todo_id : Z) (new_description : string) (l : list TodoItem)
  : option (list TodoItem) :=
  match l with
  | [] => None
  | todo :: rest =>
      if py_eq (id todo) (VInt todo_id)
      then Some (set_description todo (VStr new_description) :: rest)
      else (todo ::.) <$> edit_loop todo_id new_description rest
  end.

Definition edit_todo (todo_id : Z) (new_description : string) (self : TodoManager)
  : bool * TodoManager :=
  match edit_loop todo_id new_description (todos self) with
  | Some l => (true, save_todos (set_todos self l))
  | None => (false, self)
  end.

(** ** Sequences of operations on one manager *)

(** A call of a mutating operation; [Add] carries the clock reading of the
    call. *)
Inductive op :=
| Add (description now : string)
| Complete (todo_id : Z)
| Remove (todo_id : Z)
| Edit (todo_id : Z) (new_description : string)
| ClearCompleted.

(** What a call returns. *)
Inductive ret :=
| RItem (todo : TodoItem)
| RBool (b : bool)
| RCount (n : Z).

Definition step (o : op) (self : TodoManager) : exc (ret * TodoManager) :=
  match o with
  | Add d now => '(todo, self') ← add_todo now d self; Ok (RItem todo, self')
  | Complete i => let '(b, self') := complete_todo i self in Ok (RBool b, self')
  | Remove i => let '(b, self') := remove_todo i self in Ok (RBool b, self')
  | Edit i d => let '(b, self') := edit_todo i d self in Ok (RBool b, self')
  | ClearCompleted => let '(n, self') := clear_completed self in Ok (RCount n, self')
  end.

(** The calls of [ops] in order; the results are listed in call order. *)
Fixpoint run (ops : list op) (self : TodoManager) : exc (list ret * TodoManager) :=
  match ops with
  | [] => Ok ([], self)
  | o :: ops' =>
      '(r, self') ← step o self;
      '(rs, self'') ← run ops' self';
      Ok (r :: rs, self'')
  end.

(** ** get_valid_input *)

(** What [input(prompt)] gives at one call: a line typed by the user, or
    [KeyboardInterrupt] (the user pressed Ctrl+C at the prompt).  When no
    input is left, [input] raises [EOFError]. *)
Inductive console_input :=
| Line (s : string)
| CtrlC.

(** The messages [get_valid_input] prints: that the input cannot be empty,
    that the input is invalid, that a valid number is expected, and that the
    operation was cancelled. *)
Inductive message :=
| EmptyInput
| InvalidInput
| NotANumber
| OperationCancelled.

(** How a call ends: it returns a value, it returns [None] after
    [KeyboardInterrupt], or the [EOFError] of [input], which it does not
    catch, leaves it. *)
Inductive reply :=
| Returned (v : pyval)
| ReturnedNone
| RaisedEOFError.

Section console.

(** The library functions [str.strip] and [int] on a string; [None] stands
    for the [ValueError] of [int]. *)
Variable strip : string -> string.
Variable py_int : string -> option Z.

(** [get_valid_input(prompt, input_type, validator)] run on the inputs the
    console will give: how the call ends, the messages it prints in order,
    and the inputs it leaves unread.  [is_int] says whether [input_type] is
    [int]; [validator] is [None] or the truth value of what the validator
    returns. *)
Fixpoint get_valid_input (is_int : bool) (validator : option (pyval -> bool))
    (inputs : list console_input) : reply * list message * list console_input :=
  match inputs with
  | [] => (RaisedEOFError, [], [])
  | CtrlC :: rest => (ReturnedNone, [OperationCancelled], rest)
  | Line s :: rest =>
      let again (m : message) :=
        let '(r, ms, rest') := get_valid_input is_int validator rest in
        (r, m :: ms, rest') in
      let user_input := strip s in
      if String.eqb user_input "" then again EmptyInput
      else
        match (if is_int then VInt <$> py_int user_input else Some (VStr user_input)) with
        | None => again NotANumber
        | Some user_input =>
            match validator with
            | Some f => if f user_input then (Returned user_input, [], rest)
                        else again InvalidInput
            | None => (Returned user_input, [], rest)
            end
        end
  end.

(** The value a line stands for: its stripped text, or the integer [int]
    reads from it. *)
Definition reads (is_int : bool) (s : string) (v : pyval) : Prop :=
  if is_int then exists n, py_int (strip s) = Some n /\ v = VInt n
  else v = VStr (strip s).

(** A line is refused, with the message printed for it: it is blank, it is
    not a number when one is expected, or the validator rejects its
    value. *)
Inductive refused (is_int : bool) (validator : option (pyval -> bool))
  : string -> message -> Prop :=
| refused_empty (s : string) :
    strip s = "" -> refused is_int validator s EmptyInput
| refused_not_a_number (s : string) :
    strip s <> "" -> is_int = true -> py_int (strip s) = None ->
    refused is_int validator s NotANumber
| refused_invalid (s : string) (v : pyval) (f : pyval -> bool) :
    strip s <> "" -> reads is_int s v -> validator = Some f -> f v = false ->
    refused is_int validator s InvalidInput.

(** A line is accepted with the value [v]. *)
Definition accepted (is_int : bool) (validator : option (pyval -> bool))
    (s : string) (v : pyval) : Prop :=
  strip s <> "" /\ reads is_int s v /\ forall f, validator = Some f -> f v = true.

End console.

(** * Vocabulary of the statements *)

(** The greatest element of [ids], or 0 for the empty list. *)
Definition max_id (ids : list Z) : Z :=
  match ids with
  | [] => 0
  | x :: l => fold_left Z.max l x
  end.

(** [n] is the maximum existing id, or 0 if there is none. *)
Definition max_existing_id_or_0 (ids : list Z) (n : Z) : Prop :=
  (ids = [] /\ n = 0) \/ (n ∈ ids /\ Forall (fun k => k <= n) ids).

(** One [Add] call per pair (description, clock reading). *)
Definition adds (calls : list (string * string)) : list op :=
  (fun c => Add c.1 c.2) <$> calls.

(** The records successive [Add] calls create when the first of them gets
    the id [next]. *)
Fixpoint added (next : Z) (calls : list (string * string)) : list TodoItem :=
  match calls with
  | [] => []
  | c :: calls' =>
      {| id := VInt next; description := VStr c.1;
         completed := VBool false; created_at := VStr c.2 |}
        :: added (next + 1) calls'
  end.

(** The records [clear_completed] keeps. *)
Definition pending (l : list TodoItem) : list TodoItem :=
  List.filter (fun todo => negb (truthy (completed todo))) l.

(** The keys [from_dict] reads, in the order it reads them. *)
Definition required_keys : list string :=
  ["id"; "description"; "completed"; "created_at"].

(** A record as the data model describes it: an integer [id], a text
    [description], a boolean [completed] and a timestamp text [created_at].
    Of the ISO-8601 format only one consequence is kept, that the text is
    not empty. *)
Definition valid_record (x : TodoItem) : Prop :=
  exists (i : Z) (d : string) (c : bool) (ts : string),
    x = {| id := VInt i; description := VStr d;
           completed := VBool c; created_at := VStr ts |}
    /\ ts <> "".

(** The shape the data model gives a serialized record: a dict with the
    four keys, holding an integer, a text, a boolean and a non-empty
    text. *)
Definition well_shaped (data : pyval) : bool :=
  match data with
  | VDict d =>
      match d !! "id", d !! "description", d !! "completed", d !! "created_at" with
      | Some (VInt _), Some (VStr _), Some (VBool _), Some (VStr ts) =>
          negb (String.eqb ts "")
      | _, _, _, _ => false
      end
  | _ => false
  end.

Definition has_required_keys (d : gmap string pyval) : Prop :=
  forall k, k ∈ required_keys -> is_Some (d !! k).

Definition lacks_required_key (d : gmap string pyval) : Prop :=
  exists k, k ∈ required_keys /\ d !! k = None.

(** The record [t] is what construction at the clock reading [now] makes
    of the representation [d]: it holds the stored [id], [description] and
    [completed] as they are, and the stored [created_at] unless that is
    falsy, in which case it holds [now]. *)
Definition loaded_from (now : string) (d : gmap string pyval) (t : TodoItem) : Prop :=
  exists i ds c ts : pyval,
    d !! "id" = Some i /\
    d !! "description" = Some ds /\
    d !! "completed" = Some c /\
    d !! "created_at" = Some ts /\
    t = {| id := i; description := ds; completed := c;
           created_at := if truthy ts then ts else VStr now |}.

(** The value of a number; [bool] is a subclass of [int]. *)
Definition as_num (v : pyval) : option Z :=
  match v with
  | VBool b => Some (Z.b2z b)
  | VInt z => Some z
  | _ => None
  end.

(** What identifies a record and never changes: its id and its creation
    timestamp. *)
Definition stamp (t : TodoItem) : pyval * pyval := (id t, created_at t).

(** The records the [Add] calls of a sequence returned, in call order. *)
Definition items_of (rs : list ret) : list TodoItem :=
  rs ≫= fun r => match r with RItem t => [t] | _ => [] end.

(** The number of [Add] calls of a sequence. *)
Definition count_adds (ops : list op) : Z :=
  Z.of_nat (length (List.filter (fun o => match o with Add _ _ => true | _ => false end) ops)).

(** The clock reading of an [Add] call is not the empty string (an ISO
    timestamp never is). *)
Definition clock_read (o : op) : Prop :=
  match o with
  | Add _ now => now <> ""
  | _ => True
  end.

(** The change an operation makes to the number of records, given what it
    returned. *)
Definition size_change (o : op) (r : ret) : Z :=
  match o, r with
  | Add _ _, _ => 1
  | Remove _, RBool true => -1
  | ClearCompleted, RCount n => - n
  | _, _ => 0
  end.

(** ** Sample data *)

Definition t0 : string := "2024-01-01T10:00:00".

Definition task1 : TodoItem :=
  {| id := VInt 1; description := VStr "Buy milk";
     completed := VBool false; created_at := VStr t0 |}.

Definition task2 : TodoItem :=
  {| id := VInt 2; description := VStr "Walk dog";
     completed := VBool false; created_at := VStr t0 |}.

(** [task2] once completed. *)
Definition done2 : TodoItem :=
  {| id := VInt 2; description := VStr "Walk dog";
     completed := VBool true; created_at := VStr t0 |}.

(** A second record with the id of [task1]. *)
Definition task1' : TodoItem :=
  {| id := VInt 1; description := VStr "Read book";
     completed := VBool false; created_at := VStr t0 |}.

(** The record a third [Add] creates after [task2] was removed. *)
Definition task2' : TodoItem :=
  {| id := VInt 2; description := VStr "Read book";
     completed := VBool false; created_at := VStr t0 |}.

Definition empty_manager : TodoManager := {| todos := []; file := Missing |}.

Definition saved (l : list TodoItem) : TodoManager :=
  {| todos := l; file := Document (dump l) |}.

Definition sample_manager : TodoManager := saved [task1; done2].

(** A representation with the four keys, none of them of the shape of the
    data model. *)
Definition wrong_shaped_dict : gmap string pyval :=
  <["id" := VStr "abc"]>
    (<["description" := VInt 5]>
       (<["completed" := VNone]>
          (<["created_at" := VInt 7]> ∅))).

(** A stored document whose only record has the four keys, none of them of
    the shape of the data model. *)
Definition wrong_shaped_document : storage :=
  Document (VList [VDict wrong_shaped_dict]).

(** Records as a stored document can give them: with the id [True], the
    id 3 and the id ["abc"]. *)
Definition task_true : TodoItem :=
  {| id := VBool true; description := VStr "Buy milk";
     completed := VBool false; created_at := VStr t0 |}.

Definition task3 : TodoItem :=
  {| id := VInt 3; description := VStr "Walk dog";
     completed := VBool false; created_at := VStr t0 |}.

Definition task_abc : TodoItem :=
  {| id := VStr "abc"; description := VStr "Walk dog";
     completed := VBool false; created_at := VStr t0 |}.

(** Stand-ins for [str.strip] and [int] at the samples: the sample lines
    carry no blanks around them, and the only number typed is 7. *)
Definition sample_strip (s : string) : string := s.

Definition sample_int (s : string) : option Z :=
  if String.eqb s "7" then Some 7 else None.

(** A representation with the four keys whose [created_at] is [None]. *)
Definition unstamped_dict : gmap string pyval :=
  <["id" := VInt 2]>
    (<["description" := VStr "Walk dog"]>
       (<["completed" := VBool false]>
          (<["created_at" := VNone]> ∅))).

(** A well-formed stored document in which two records have the id 1. *)
Definition duplicate_ids_document : storage := Document (dump [task1; task1']).

(** * Properties *)

(** ** The built-ins on integers *)

Lemma max_loop_ints (x : Z) (l : list Z) :
  max_loop (VInt x) (VInt <$> l) = Ok (VInt (fold_left Z.max l x)).
Proof.
  revert x. induction l as [|y l IH]; intros x; [done|].
  change (max_loop (VInt x) (VInt <$> y :: l))
    with (max_loop (if y >? x then VInt y else VInt x) (VInt <$> l)).
  change (fold_left Z.max (y :: l) x) with (fold_left Z.max l (Z.max x y)).
  destruct (Z.gtb_spec y x) as [Hgt|Hle].
  - rewrite IH. by rewrite Z.max_r by lia.
  - rewrite IH. by rewrite Z.max_l by lia.
Qed.

Lemma fold_left_max_spec (l : list Z) (x : Z) :
  fold_left Z.max l x ∈ x :: l /\ Forall (fun k => k <= fold_left Z.max l x) (x :: l).
Proof.
  revert x. induction l as [|y l IH]; intros x; simpl.
  - split; [left | repeat constructor; lia].
  - destruct (IH (Z.max x y)) as [Hin Hall]. split.
    + apply elem_of_cons in Hin as [Heq|Hin].
      * rewrite Heq. destruct (Z.max_spec x y) as [[_ ->]|[_ ->]].
        -- right; left.
        -- left.
      * right; by right.
    + inversion Hall as [|? ? Hmax Hl]; subst.
      repeat constructor; [lia | lia | done].
Qed.

Lemma max_id_spec (ids : list Z) : max_existing_id_or_0 ids (max_id ids).
Proof.
  destruct ids as [|x l]; [by left | right]. apply fold_left_max_spec.
Qed.

Lemma max_existing_id_or_0_unique (ids : list Z) (n n' : Z) :
  max_existing_id_or_0 ids n -> max_existing_id_or_0 ids n' -> n = n'.
Proof.
  intros [[-> ->]|[Hin Hall]] [[Hnil ->]|[Hin' Hall']]; try done.
  - by apply elem_of_nil in Hin'.
  - subst. by apply elem_of_nil in Hin.
  - rewrite Forall_forall in Hall, Hall'.
    apply Hall in Hin'. apply Hall' in Hin. lia.
Qed.

Lemma py_max_ints (ids : list Z) :
  py_max (VInt <$> ids) (VInt 0) = Ok (VInt (max_id ids)).
Proof. destruct ids as [|x l]; [done|]. apply max_loop_ints. Qed.

(** [add_todo] on a collection whose ids are the integers [ids]. *)
Lemma add_todo_ints (now d : string) (self : TodoManager) (ids : list Z) :
  id <$> todos self = VInt <$> ids ->
  let todo := {| id := VInt (max_id ids + 1); description := VStr d;
                 completed := VBool false; created_at := VStr now |} in
  add_todo now d self =
    Ok (todo, {| todos := todos self ++ [todo];
                 file := Document (dump (todos self ++ [todo])) |}).
Proof.
  intros Hids. unfold add_todo. rewrite Hids, py_max_ints. reflexivity.
Qed.

(** ** Adding records *)

Lemma max_id_snoc (ids : list Z) : max_id (ids ++ [max_id ids + 1]) = max_id ids + 1.
Proof.
  apply (max_existing_id_or_0_unique (ids ++ [max_id ids + 1])); [apply max_id_spec|].
  right. split; [set_solver|].
  apply Forall_app. split; [|repeat constructor; lia].
  destruct (max_id_spec ids) as [[-> _]|[_ Hall]]; [constructor|].
  eapply Forall_impl; [exact Hall|]. intros k Hk. simpl in Hk. lia.
Qed.

Lemma added_ids (next : Z) (calls : list (string * string)) :
  id <$> added next calls = VInt <$> seqZ next (Z.of_nat (length calls)).
Proof.
  revert next. induction calls as [|c calls IH]; intros next; [done|].
  cbn [added length fmap list_fmap]. rewrite seqZ_cons by lia.
  rewrite fmap_cons. f_equal.
  rewrite IH. do 2 f_equal; lia.
Qed.

Lemma added_descriptions (next : Z) (calls : list (string * string)) :
  description <$> added next calls = VStr <$> calls.*1.
Proof.
  revert next. induction calls as [|c calls IH]; intros next; [done|].
  cbn [added]. rewrite !fmap_cons. f_equal. apply IH.
Qed.

Lemma run_adds (calls : list (string * string)) (self : TodoManager) (ids : list Z) :
  id <$> todos self = VInt <$> ids ->
  exists self',
    run (adds calls) self = Ok (RItem <$> added (max_id ids + 1) calls, self') /\
    todos self' = todos self ++ added (max_id ids + 1) calls.
Proof.
  revert self ids. induction calls as [|c calls IH]; intros self ids Hids.
  - exists self. split; [done|]. by rewrite app_nil_r.
  - pose proof (add_todo_ints c.2 c.1 self ids Hids) as Hadd. cbv zeta in Hadd.
    set (todo := {| id := VInt (max_id ids + 1); description := VStr c.1;
                    completed := VBool false; created_at := VStr c.2 |}) in *.
    set (self1 := {| todos := todos self ++ [todo];
                     file := Document (dump (todos self ++ [todo])) |}) in *.
    destruct (IH self1 (ids ++ [max_id ids + 1])) as (self' & Hrun & Htodos).
    { unfold self1; simpl. by rewrite !fmap_app, Hids. }
    rewrite max_id_snoc in Hrun, Htodos.
    exists self'. split.
    + cbn [adds fmap list_fmap run step]. rewrite Hadd. cbn.
      unfold adds in Hrun. rewrite Hrun. reflexivity.
    + rewrite Htodos. unfold self1; simpl. by rewrite <- app_assoc.
Qed.

(** C4.  On a collection whose ids are integers, [add_todo] returns a record
    whose id is the maximum existing id (0 for the empty collection) plus 1,
    with the given description and [completed = False]; the record is
    appended at the end of the collection and the file is rewritten with the
    whole collection.  Successive calls on an empty collection assign the
    ids 1, 2, 3, ... in call order. *)
Theorem add_todo_spec :
  (forall (now d : string) (self : TodoManager) (ids : list Z),
      id <$> todos self = VInt <$> ids ->
      exists (n : Z) (todo : TodoItem),
        max_existing_id_or_0 ids n /\
        todo = {| id := VInt (n + 1); description := VStr d;
                  completed := VBool false; created_at := VStr now |} /\
        add_todo now d self =
          Ok (todo, {| todos := todos self ++ [todo];
                       file := Document (dump (todos self ++ [todo])) |})) /\
  (forall (calls : list (string * string)) (self : TodoManager),
      todos self = [] ->
      exists (items : list TodoItem) (self' : TodoManager),
        run (adds calls) self = Ok (RItem <$> items, self') /\
        todos self' = items /\
        id <$> items = VInt <$> seqZ 1 (Z.of_nat (length calls)) /\
        description <$> items = VStr <$> calls.*1).
Proof.
  split.
  - intros now d self ids Hids. eexists (max_id ids), _.
    split; [apply max_id_spec|]. split; [reflexivity|].
    by apply add_todo_ints.
  - intros calls self Hnil.
    destruct (run_adds calls self []) as (self' & Hrun & Htodos).
    { by rewrite Hnil. }
    exists (added 1 calls), self'. split; [exact Hrun|].
    split; [by rewrite Htodos, Hnil|].
    split; [apply added_ids | apply added_descriptions].
Qed.

(** ** Finding a record by id *)

(** The first record of [l] whose id equals [todo_id], with the records
    before and after it. *)
Lemma first_match_split (todo_id : Z) (l : list TodoItem) :
  (exists t, t ∈ l /\ py_eq (id t) (VInt todo_id) = true) ->
  exists pre t post,
    l = pre ++ t :: post /\
    Forall (fun u => py_eq (id u) (VInt todo_id) = false) pre /\
    py_eq (id t) (VInt todo_id) = true.
Proof.
  induction l as [|x l IH]; intros (t & Hin & Ht).
  - by apply elem_of_nil in Hin.
  - destruct (py_eq (id x) (VInt todo_id)) eqn:Hx.
    + exists [], x, l. by repeat split.
    + apply elem_of_cons in Hin as [->|Hin]; [congruence|].
      destruct IH as (pre & t' & post & -> & Hpre & Ht'); [by exists t|].
      exists (x :: pre), t', post. repeat split; [|done]. by constructor.
Qed.

Lemma no_match_Forall (todo_id : Z) (l : list TodoItem) :
  (forall t, t ∈ l -> py_eq (id t) (VInt todo_id) = false) ->
  Forall (fun u => py_eq (id u) (VInt todo_id) = false) l.
Proof. intros H. by apply Forall_forall. Qed.

(** The four loops scan the list the same way; their lemmas are proved by
    the same induction on the records before the match. *)
Ltac scan_loop H :=
  induction H as [|? ? Hx _ IH]; simpl; [|rewrite Hx, IH]; try done.

Section loops.
Variable todo_id : Z.
Variable post : list TodoItem.
Variable t : TodoItem.
Hypothesis Ht : py_eq (id t) (VInt todo_id) = true.

Let before (pre : list TodoItem) : Prop :=
  Forall (fun u => py_eq (id u) (VInt todo_id) = false) pre.

Lemma complete_loop_found (pre : list TodoItem) :
  before pre ->
  complete_loop todo_id (pre ++ t :: post)
  = Some (pre ++ set_completed t (VBool true) :: post).
Proof using Ht. intros Hpre. scan_loop Hpre. by rewrite Ht. Qed.

Lemma edit_loop_found (d : string) (pre : list TodoItem) :
  before pre ->
  edit_loop todo_id d (pre ++ t :: post)
  = Some (pre ++ set_description t (VStr d) :: post).
Proof using Ht. intros Hpre. scan_loop Hpre. by rewrite Ht. Qed.

Lemma remove_loop_found (pre : list TodoItem) :
  before pre ->
  remove_loop todo_id (pre ++ t :: post) = Some (pre ++ post).
Proof using Ht. intros Hpre. scan_loop Hpre. by rewrite Ht. Qed.

Lemma get_todo_loop_found (pre : list TodoItem) :
  before pre ->
  get_todo_loop todo_id (pre ++ t :: post) = Some t.
Proof using Ht. intros Hpre. scan_loop Hpre. by rewrite Ht. Qed.
End loops.

Section loops_none.
Variable todo_id : Z.

Let none (l : list TodoItem) : Prop :=
  Forall (fun u => py_eq (id u) (VInt todo_id) = false) l.

Lemma complete_loop_none (l : list TodoItem) :
  none l -> complete_loop todo_id l = None.
Proof. intros Hl. scan_loop Hl. Qed.

Lemma edit_loop_none (d : string) (l : list TodoItem) :
  none l -> edit_loop todo_id d l = None.
Proof. intros Hl. scan_loop Hl. Qed.

Lemma remove_loop_none (l : list TodoItem) :
  none l -> remove_loop todo_id l = None.
Proof. intros Hl. scan_loop Hl. Qed.

Lemma get_todo_loop_none (l : list TodoItem) :
  none l -> get_todo_loop todo_id l = None.
Proof. intros Hl. scan_loop Hl. Qed.
End loops_none.

(** ** Completing a record *)

(** C5.  When a record with the id exists, [complete_todo] returns [True],
    sets the [completed] attribute of the first such record to [True], leaves
    every other record and attribute as it was, and rewrites the file with
    the whole collection; this holds whatever the record's flag was before,
    so a call on a record already completed still rewrites the file and
    still returns [True].  When no record has the id, it returns [False] and
    the collection and the file are unchanged. *)
Theorem complete_todo_spec (todo_id : Z) (self : TodoManager) :
  ((exists t, t ∈ todos self /\ py_eq (id t) (VInt todo_id) = true) ->
   exists pre t post,
     todos self = pre ++ t :: post /\
     Forall (fun u => py_eq (id u) (VInt todo_id) = false) pre /\
     py_eq (id t) (VInt todo_id) = true /\
     let l := pre ++ {| id := id t; description := description t;
                        completed := VBool true; created_at := created_at t |}
                  :: post in
     complete_todo todo_id self = (true, {| todos := l; file := Document (dump l) |}) /\
     (completed t = VBool true ->
      complete_todo todo_id self
      = (true, {| todos := todos self; file := Document (dump (todos self)) |})))
  /\
  ((forall t, t ∈ todos self -> py_eq (id t) (VInt todo_id) = false) ->
   complete_todo todo_id self = (false, self)).
Proof.
  split.
  - intros Hex.
    destruct (first_match_split todo_id (todos self) Hex)
      as (pre & t & post & Hl & Hpre & Ht).
    exists pre, t, post. repeat split; try done.
    + unfold complete_todo. rewrite Hl, complete_loop_found by done. reflexivity.
    + intros Hdone. unfold complete_todo.
      rewrite Hl, complete_loop_found by done.
      unfold save_todos, set_todos, set_completed; simpl.
      rewrite <- Hdone. by destruct t.
  - intros Hno. unfold complete_todo.
    by rewrite complete_loop_none by by apply no_match_Forall.
Qed.

(** ** Editing a record *)

(** C7.  When a record with the id exists, [edit_todo] replaces the
    description of the first such record and nothing else: its id, its
    [completed] flag and its [created_at] are unchanged, and so is every
    other record; the file is rewritten with the whole collection and the
    call returns [True].  Otherwise it returns [False] (and changes
    nothing). *)
Theorem edit_todo_spec (todo_id : Z) (new_description : string) (self : TodoManager) :
  ((exists t, t ∈ todos self /\ py_eq (id t) (VInt todo_id) = true) ->
   exists pre t post,
     todos self = pre ++ t :: post /\
     Forall (fun u => py_eq (id u) (VInt todo_id) = false) pre /\
     py_eq (id t) (VInt todo_id) = true /\
     let l := pre ++ {| id := id t; description := VStr new_description;
                        completed := completed t; created_at := created_at t |}
                  :: post in
     edit_todo todo_id new_description self
     = (true, {| todos := l; file := Document (dump l) |}))
  /\
  ((forall t, t ∈ todos self -> py_eq (id t) (VInt todo_id) = false) ->
   edit_todo todo_id new_description self = (false, self)).
Proof.
  split.
  - intros Hex.
    destruct (first_match_split todo_id (todos self) Hex)
      as (pre & t & post & Hl & Hpre & Ht).
    exists pre, t, post. repeat split; try done.
    unfold edit_todo. rewrite Hl, edit_loop_found by done. reflexivity.
  - intros Hno. unfold edit_todo.
    by rewrite edit_loop_none by by apply no_match_Forall.
Qed.

(** ** Removing and looking up a record *)

(** [remove_todo] deletes the first record with the id, keeps the others in
    order and rewrites the file; without a match it changes nothing. *)
Lemma remove_todo_spec (todo_id : Z) (self : TodoManager) :
  ((exists t, t ∈ todos self /\ py_eq (id t) (VInt todo_id) = true) ->
   exists pre t post,
     todos self = pre ++ t :: post /\
     Forall (fun u => py_eq (id u) (VInt todo_id) = false) pre /\
     py_eq (id t) (VInt todo_id) = true /\
     remove_todo todo_id self
     = (true, {| todos := pre ++ post; file := Document (dump (pre ++ post)) |}))
  /\
  ((forall t, t ∈ todos self -> py_eq (id t) (VInt todo_id) = false) ->
   remove_todo todo_id self = (false, self)).
Proof.
  split.
  - intros Hex.
    destruct (first_match_split todo_id (todos self) Hex)
      as (pre & t & post & Hl & Hpre & Ht).
    exists pre, t, post. repeat split; try done.
    unfold remove_todo. rewrite Hl, remove_loop_found by done. reflexivity.
  - intros Hno. unfold remove_todo.
    by rewrite remove_loop_none by by apply no_match_Forall.
Qed.

(** [get_todo] returns the first record with the id, and [None] when no
    record has it. *)
Lemma get_todo_spec (todo_id : Z) (self : TodoManager) :
  (forall pre t post,
      todos self = pre ++ t :: post ->
      Forall (fun u => py_eq (id u) (VInt todo_id) = false) pre ->
      py_eq (id t) (VInt todo_id) = true ->
      get_todo todo_id self = Some t)
  /\
  ((forall t, t ∈ todos self -> py_eq (id t) (VInt todo_id) = false) ->
   get_todo todo_id self = None).
Proof.
  split.
  - intros pre t post Hl Hpre Ht. unfold get_todo.
    by rewrite Hl, get_todo_loop_found.
  - intros Hno. unfold get_todo.
    by rewrite get_todo_loop_none by by apply no_match_Forall.
Qed.

(** The scenario of two tasks: add both, complete the first, list the
    pending ones, clear the completed ones, remove the second, add again. *)
Example scenario :
  run [Add "Buy milk" t0; Add "Walk dog" t0; Complete 1] empty_manager
  = Ok ([RItem task1; RItem task2; RBool true],
        saved [set_completed task1 (VBool true); task2])
  /\ list_todos false (saved [set_completed task1 (VBool true); task2]) = [task2]
  /\ run [ClearCompleted; Remove 2; Add "Read book" t0]
         (saved [set_completed task1 (VBool true); task2])
     = Ok ([RCount 1; RBool true; RItem task1'], saved [task1']).
Proof. repeat split; vm_compute; reflexivity. Qed.

(** ** Clearing the completed records *)

Section filter_facts.
Context {A : Type} (p : A -> bool).

Lemma filter_split_length (l : list A) :
  (length l = length (List.filter p l)
              + length (List.filter (fun x => negb (p x)) l))%nat.
Proof. induction l as [|x l IH]; simpl; [done|]. destruct (p x); simpl; lia. Qed.

Lemma filter_sublist (l : list A) : List.filter p l `sublist_of` l.
Proof.
  induction l as [|x l IH]; simpl; [constructor|].
  destruct (p x); by constructor.
Qed.

Lemma filter_elem_of (l : list A) (x : A) :
  x ∈ List.filter p l <-> x ∈ l /\ p x = true.
Proof. rewrite !list_elem_of_In. apply filter_In. Qed.

Lemma filter_length_bound (l : list A) :
  (length (List.filter p l) <= length l)%nat.
Proof. induction l as [|x l IH]; simpl; [done|]. destruct (p x); simpl; lia. Qed.

Lemma filter_keeps_all (l : list A) :
  length (List.filter p l) = length l -> List.filter p l = l.
Proof.
  induction l as [|x l IH]; simpl; [done|].
  pose proof (filter_length_bound l).
  destruct (p x); simpl; intros Hlen; [|lia].
  f_equal. apply IH. lia.
Qed.

Lemma filter_none_left (l : list A) :
  List.filter p (List.filter (fun x => negb (p x)) l) = [].
Proof.
  induction l as [|x l IH]; simpl; [done|].
  destruct (p x) eqn:Hx; simpl; [done|]. by rewrite Hx.
Qed.
End filter_facts.

Lemma clear_completed_count (self : TodoManager) :
  (clear_completed self).1
  = Z.of_nat (length (List.filter (fun todo => truthy (completed todo)) (todos self))).
Proof.
  unfold clear_completed; cbv zeta.
  pose proof (filter_split_length (fun todo => truthy (completed todo)) (todos self)) as Hlen.
  destruct (_ >? 0); simpl; lia.
Qed.

Lemma clear_completed_todos (self : TodoManager) :
  todos (clear_completed self).2 = pending (todos self).
Proof. unfold clear_completed; cbv zeta. by destruct (_ >? 0). Qed.

(** C6.  [clear_completed] keeps exactly the records whose [completed] flag
    is not set, in their original order; it returns the number of records
    removed, which is the number of records whose flag was set (0 if none);
    it rewrites the file when that number is positive and leaves the file
    untouched when it is 0; a second call right after the first returns
    0. *)
Theorem clear_completed_spec (self : TodoManager) :
  let n := (clear_completed self).1 in
  let self' := (clear_completed self).2 in
  todos self' = List.filter (fun todo => negb (truthy (completed todo))) (todos self)
  /\ (forall t, t ∈ todos self' <-> t ∈ todos self /\ truthy (completed t) = false)
  /\ todos self' `sublist_of` todos self
  /\ n = Z.of_nat (length (List.filter (fun todo => truthy (completed todo)) (todos self)))
  /\ (0 < n -> file self' = Document (dump (todos self')))
  /\ (n = 0 -> self' = self)
  /\ (clear_completed self').1 = 0.
Proof.
  intros n self'.
  assert (Hn : n = Z.of_nat (length (List.filter (fun todo => truthy (completed todo))
                                                 (todos self))))
    by apply clear_completed_count.
  assert (Htodos : todos self' = pending (todos self)) by apply clear_completed_todos.
  split; [exact Htodos|].
  split.
  { intros t. rewrite Htodos. unfold pending. rewrite filter_elem_of.
    by rewrite negb_true_iff. }
  split; [rewrite Htodos; apply filter_sublist|].
  split; [exact Hn|].
  split.
  { intros Hpos. subst n self'. unfold clear_completed in *; cbv zeta in *.
    destruct (_ >? 0) eqn:Hgt; simpl in *; [done|]. lia. }
  split.
  { intros Hzero. subst n self'. unfold clear_completed in *; cbv zeta in *.
    destruct (_ >? 0) eqn:Hgt; simpl in *; [lia|].
    assert (Hlen : length (List.filter (fun todo => negb (truthy (completed todo)))
                                       (todos self)) = length (todos self)) by lia.
    destruct self as [l f]; unfold set_todos; simpl in *. f_equal.
    by apply filter_keeps_all. }
  rewrite clear_completed_count, Htodos. unfold pending.
  by rewrite (filter_none_left (fun todo => truthy (completed todo))).
Qed.

(** ** Serialization of a record *)

Lemma to_dict_lookup (x : TodoItem) :
  to_dict x !! "id" = Some (id x) /\
  to_dict x !! "description" = Some (description x) /\
  to_dict x !! "completed" = Some (completed x) /\
  to_dict x !! "created_at" = Some (created_at x).
Proof. unfold to_dict. by repeat split; simplify_map_eq. Qed.

(** [from_dict] on a dict, key by key. *)
Lemma from_dict_dict (now : string) (d : gmap string pyval) :
  from_dict now (VDict d) =
    match d !! "id", d !! "description", d !! "completed", d !! "created_at" with
    | None, _, _, _ => Raise (KeyError "id")
    | Some _, None, _, _ => Raise (KeyError "description")
    | Some _, Some _, None, _ => Raise (KeyError "completed")
    | Some _, Some _, Some _, None => Raise (KeyError "created_at")
    | Some i, Some ds, Some c, Some ts => Ok (TodoItem_init now i ds c ts)
    end.
Proof.
  unfold from_dict, py_getitem.
  destruct (d !! "id"); [|done].
  destruct (d !! "description"); [|done].
  destruct (d !! "completed"); [|done].
  by destruct (d !! "created_at").
Qed.

Lemma from_dict_present (now : string) (d : gmap string pyval) (i ds c ts : pyval) :
  d !! "id" = Some i -> d !! "description" = Some ds ->
  d !! "completed" = Some c -> d !! "created_at" = Some ts ->
  from_dict now (VDict d) = Ok (TodoItem_init now i ds c ts).
Proof. intros Hi Hd Hc Ht. by rewrite from_dict_dict, Hi, Hd, Hc, Ht. Qed.

(** Membership of a literal key in [required_keys]. *)
Ltac key_in := unfold required_keys; rewrite !elem_of_cons; auto 6.

Lemma from_dict_raises (now : string) (d : gmap string pyval) (e : exn) :
  from_dict now (VDict d) = Raise e ->
  exists k, k ∈ required_keys /\ d !! k = None /\ e = KeyError k.
Proof.
  rewrite from_dict_dict. intros H.
  destruct (d !! "id") eqn:Hi;
    [|exists "id"; split; [key_in|split; [done|congruence]]].
  destruct (d !! "description") eqn:Hd;
    [|exists "description"; split; [key_in|split; [done|congruence]]].
  destruct (d !! "completed") eqn:Hc;
    [|exists "completed"; split; [key_in|split; [done|congruence]]].
  destruct (d !! "created_at") eqn:Ht;
    [|exists "created_at"; split; [key_in|split; [done|congruence]]].
  discriminate.
Qed.

Lemma from_dict_absent (now : string) (d : gmap string pyval) (k : string) :
  k ∈ required_keys -> d !! k = None ->
  exists k', from_dict now (VDict d) = Raise (KeyError k').
Proof.
  intros Hk Hnone.
  destruct (from_dict now (VDict d)) as [x|e] eqn:Hfrom.
  - exfalso. rewrite from_dict_dict in Hfrom.
    unfold required_keys in Hk. rewrite !elem_of_cons in Hk.
    destruct Hk as [->|[->|[->|[->|Hk]]]];
      [..|by apply elem_of_nil in Hk]; rewrite Hnone in Hfrom;
      repeat case_match; discriminate.
  - destruct (from_dict_raises now d e Hfrom) as (k' & _ & _ & ->). by exists k'.
Qed.

(** [from_dict] after [to_dict] gives the record back when its [created_at]
    is truthy. *)
Lemma from_dict_to_dict (now : string) (x : TodoItem) :
  truthy (created_at x) = true ->
  from_dict now (VDict (to_dict x)) = Ok x.
Proof.
  intros Htruthy. destruct (to_dict_lookup x) as (Hi & Hd & Hc & Ht).
  rewrite (from_dict_present _ _ _ _ _ _ Hi Hd Hc Ht).
  unfold TodoItem_init. rewrite Htruthy. by destruct x.
Qed.

Lemma nonempty_truthy (s : string) : s <> "" -> truthy (VStr s) = true.
Proof. intros Hs. simpl. by destruct (String.eqb_spec s ""). Qed.

(** C3.  Deserializing the serialization of a valid record gives a record
    equal to it in all four attributes. *)
Theorem roundtrip_valid_record (now : string) (x : TodoItem) :
  valid_record x ->
  from_dict now (VDict (to_dict x)) = Ok x.
Proof.
  intros (i & d & c & ts & -> & Hts).
  apply from_dict_to_dict. simpl created_at. by apply nonempty_truthy.
Qed.

(** C8, as stated, fails: a representation whose four values all have the
    wrong shape is deserialized without an error, into a record that holds
    the values as they are. *)
Lemma from_dict_accepts_wrong_shape :
  well_shaped (VDict wrong_shaped_dict) = false /\
  from_dict "2024-01-01T10:00:00" (VDict wrong_shaped_dict)
  = Ok {| id := VStr "abc"; description := VInt 5;
          completed := VNone; created_at := VInt 7 |}.
Proof. split; vm_compute; reflexivity. Qed.

(** C8, amended.  Deserialization of a dict fails exactly when one of the
    four keys is absent, and the failure is the [KeyError] of an absent key;
    the shapes of the values are not examined.  With the four keys present
    it builds the record that holds the four values as given, except that a
    falsy [created_at] is replaced by the clock reading; for values of the
    shape of the data model this is the equivalent record. *)
Theorem from_dict_fails_iff_key_absent (now : string) (d : gmap string pyval) :
  ((exists e, from_dict now (VDict d) = Raise e)
   <-> (exists k, k ∈ required_keys /\ d !! k = None))
  /\ (forall e, from_dict now (VDict d) = Raise e ->
        exists k, k ∈ required_keys /\ d !! k = None /\ e = KeyError k)
  /\ (forall i ds c ts : pyval,
        d !! "id" = Some i -> d !! "description" = Some ds ->
        d !! "completed" = Some c -> d !! "created_at" = Some ts ->
        from_dict now (VDict d)
        = Ok {| id := i; description := ds; completed := c;
                created_at := if truthy ts then ts else VStr now |})
  /\ (forall (i : Z) (ds : string) (c : bool) (ts : string),
        d !! "id" = Some (VInt i) -> d !! "description" = Some (VStr ds) ->
        d !! "completed" = Some (VBool c) -> d !! "created_at" = Some (VStr ts) ->
        ts <> "" ->
        from_dict now (VDict d)
        = Ok {| id := VInt i; description := VStr ds; completed := VBool c;
                created_at := VStr ts |}).
Proof.
  split; [split|split; [|split]].
  - intros [e He]. destruct (from_dict_raises now d e He) as (k & Hk & Hnone & _).
    by exists k.
  - intros (k & Hk & Hnone).
    destruct (from_dict_absent now d k Hk Hnone) as (k' & Hraise).
    by exists (KeyError k').
  - apply from_dict_raises.
  - intros i ds c ts Hi Hd Hc Ht. by apply from_dict_present.
  - intros i ds c ts Hi Hd Hc Ht Hts.
    rewrite (from_dict_present _ _ _ _ _ _ Hi Hd Hc Ht).
    unfold TodoItem_init. by rewrite nonempty_truthy.
Qed.

(** C10.  With a non-empty clock reading [now]: a record constructed with
    the empty string as [created_at] holds [now] instead; a representation
    with the four keys whose [created_at] is the empty string is
    deserialized into a record whose [created_at] is [now], so serializing
    that record does not give the representation back; and a record whose
    [created_at] is the empty string does not survive serialization followed
    by deserialization. *)
Theorem empty_created_at_replaced (now : string) :
  now <> "" ->
  (forall i d c : pyval,
      created_at (TodoItem_init now i d c (VStr "")) = VStr now
      /\ created_at (TodoItem_init now i d c (VStr "")) <> VStr "")
  /\ (forall (data : gmap string pyval) (i d c : pyval),
        data !! "id" = Some i -> data !! "description" = Some d ->
        data !! "completed" = Some c -> data !! "created_at" = Some (VStr "") ->
        let x := {| id := i; description := d; completed := c;
                    created_at := VStr now |} in
        from_dict now (VDict data) = Ok x
        /\ to_dict x !! "created_at" <> data !! "created_at"
        /\ to_dict x <> data)
  /\ (forall x : TodoItem,
        created_at x = VStr "" ->
        from_dict now (VDict (to_dict x))
        = Ok {| id := id x; description := description x;
                completed := completed x; created_at := VStr now |}
        /\ from_dict now (VDict (to_dict x)) <> Ok x).
Proof.
  intros Hnow.
  assert (Hne : VStr now <> VStr "") by congruence.
  split; [|split].
  - intros i d c. by split.
  - intros data i d c Hi Hd Hc Ht x.
    assert (Hlookup : to_dict x !! "created_at" <> data !! "created_at").
    { destruct (to_dict_lookup x) as (_ & _ & _ & ->). rewrite Ht. simpl. congruence. }
    split; [by rewrite (from_dict_present _ _ _ _ _ _ Hi Hd Hc Ht)|].
    split; [done|]. intros Heq. by rewrite Heq in Hlookup.
  - intros x Hx. destruct (to_dict_lookup x) as (Hi & Hd & Hc & Ht).
    rewrite (from_dict_present _ _ _ _ _ _ Hi Hd Hc Ht).
    unfold TodoItem_init. rewrite Hx. simpl.
    split; [done|]. intros Heq. injection Heq as Heq.
    apply (f_equal created_at) in Heq. simpl in Heq. congruence.
Qed.

(** ** Loading the collection *)

Lemma from_dict_loaded (now : string) (d : gmap string pyval) (t : TodoItem) :
  from_dict now (VDict d) = Ok t -> has_required_keys d /\ loaded_from now d t.
Proof.
  rewrite from_dict_dict. intros H.
  destruct (d !! "id") as [i|] eqn:Hi; [|done].
  destruct (d !! "description") as [ds|] eqn:Hd; [|done].
  destruct (d !! "completed") as [c|] eqn:Hc; [|done].
  destruct (d !! "created_at") as [ts|] eqn:Ht; [|done].
  injection H as <-. split.
  - intros k Hk. unfold required_keys in Hk. rewrite !elem_of_cons in Hk.
    destruct Hk as [->|[->|[->|[->|Hk]]]]; [by eexists..|by apply elem_of_nil in Hk].
  - by exists i, ds, c, ts.
Qed.

(** The comprehension over a list of dicts: either every dict has the four
    keys and the record at each position is the one built from the dict at
    that position, at the clock reading of that position; or some dict lacks
    a key and the comprehension raises [KeyError]. *)
Lemma from_dict_all_dicts (clock : nat -> string) (ds : list (gmap string pyval)) (i : nat) :
  match from_dict_all clock i (VDict <$> ds) with
  | Ok l =>
      Forall has_required_keys ds /\ length l = length ds /\
      forall (j : nat) (d : gmap string pyval),
        ds !! j = Some d ->
        exists t, l !! j = Some t /\ loaded_from (clock (i + j)%nat) d t
  | Raise e => (exists k, e = KeyError k) /\ Exists lacks_required_key ds
  end.
Proof.
  revert i. induction ds as [|d ds IH]; intros i.
  - simpl. by repeat split.
  - rewrite fmap_cons. cbn [from_dict_all].
    destruct (from_dict (clock i) (VDict d)) as [t|e] eqn:Hd.
    + apply from_dict_loaded in Hd as [Hkeys Hloaded].
      specialize (IH (S i)).
      destruct (from_dict_all clock (S i) (VDict <$> ds)) as [l|e]; simpl.
      * destruct IH as (Hall & Hlen & Hl). split; [by constructor|].
        split; [by rewrite Hlen|]. intros [|j] d' Hj; simpl in Hj.
        -- injection Hj as <-. exists t. split; [done|]. by rewrite Nat.add_0_r.
        -- destruct (Hl j d' Hj) as (t' & Ht' & Hloaded').
           exists t'. split; [done|]. by rewrite Nat.add_succ_r.
      * destruct IH as [Hk Hex]. split; [done|]. by apply Exists_cons_tl.
    + simpl. apply from_dict_raises in Hd as (k & Hk & Hnone & ->).
      split; [by exists k|]. apply Exists_cons_hd. by exists k.
Qed.

Lemma has_keys_not_lacking (ds : list (gmap string pyval)) :
  Forall has_required_keys ds -> Exists lacks_required_key ds -> False.
Proof.
  intros Hall Hex. induction Hex as [d ds (k & Hk & Hnone)|d ds _ IH].
  - apply Forall_cons in Hall as [Hd _]. destruct (Hd k Hk) as [v Hv]. congruence.
  - apply Forall_cons in Hall as [_ Hall]. by apply IH.
Qed.

(** C2, as stated, fails: on a storage content whose record has wrong-shaped
    fields, construction does not yield an empty collection; the record is
    loaded as it is. *)
Lemma load_keeps_wrong_shaped_record :
  well_shaped (VDict wrong_shaped_dict) = false /\
  TodoManager_init (fun _ => "2024-01-01T10:00:00") wrong_shaped_document
  = Ok {| todos := [ {| id := VStr "abc"; description := VInt 5;
                        completed := VNone; created_at := VInt 7 |} ];
          file := wrong_shaped_document |}.
Proof. split; vm_compute; reflexivity. Qed.

(** C2, amended.  Construction succeeds with an empty collection, and leaves
    the file as it is, when the file is missing, when [json.load] rejects it
    with [JSONDecodeError], and when it holds a list of dicts of which at
    least one lacks one of the four keys (however many complete records the
    list also holds).  When every dict of the list has the four keys,
    construction loads one record per dict, in order: each record holds the
    stored id, description and flag whatever their shapes, and the stored
    timestamp unless that is falsy, in which case it holds the clock reading
    taken while the record is built. *)
Theorem load_todos_fallback (clock : nat -> string) :
  TodoManager_init clock Missing = Ok {| todos := []; file := Missing |}
  /\ TodoManager_init clock Unparsable = Ok {| todos := []; file := Unparsable |}
  /\ (forall ds : list (gmap string pyval),
        Exists lacks_required_key ds ->
        TodoManager_init clock (Document (VList (VDict <$> ds)))
        = Ok {| todos := []; file := Document (VList (VDict <$> ds)) |})
  /\ (forall ds : list (gmap string pyval),
        Forall has_required_keys ds ->
        exists l : list TodoItem,
          TodoManager_init clock (Document (VList (VDict <$> ds)))
          = Ok {| todos := l; file := Document (VList (VDict <$> ds)) |}
          /\ length l = length ds
          /\ forall (j : nat) (d : gmap string pyval),
               ds !! j = Some d ->
               exists t, l !! j = Some t /\ loaded_from (clock j) d t).
Proof.
  split; [done|]. split; [done|]. split.
  - intros ds Hex. unfold TodoManager_init, load_todos; simpl.
    pose proof (from_dict_all_dicts clock ds 0) as Hall.
    destruct (from_dict_all clock 0 (VDict <$> ds)) as [l|e].
    + destruct Hall as [Hall _]. destruct (has_keys_not_lacking ds Hall Hex).
    + by destruct Hall as [[k ->] _].
  - intros ds Hkeys. unfold TodoManager_init, load_todos; simpl.
    pose proof (from_dict_all_dicts clock ds 0) as Hall.
    destruct (from_dict_all clock 0 (VDict <$> ds)) as [l|e].
    + destruct Hall as (_ & Hlen & Hl). by exists l.
    + destruct Hall as [_ Hex]. destruct (has_keys_not_lacking ds Hkeys Hex).
Qed.

(** ** The ids of a collection along a sequence of calls *)

Lemma complete_loop_ids (todo_id : Z) (l l' : list TodoItem) :
  complete_loop todo_id l = Some l' -> id <$> l' = id <$> l.
Proof.
  revert l'. induction l as [|x l IH]; intros l' H; simpl in H; [done|].
  destruct (py_eq (id x) (VInt todo_id)).
  - by injection H as <-.
  - destruct (complete_loop todo_id l) as [l0|]; [|done].
    injection H as <-. rewrite !fmap_cons. f_equal. by apply IH.
Qed.

Lemma edit_loop_ids (todo_id : Z) (d : string) (l l' : list TodoItem) :
  edit_loop todo_id d l = Some l' -> id <$> l' = id <$> l.
Proof.
  revert l'. induction l as [|x l IH]; intros l' H; simpl in H; [done|].
  destruct (py_eq (id x) (VInt todo_id)).
  - by injection H as <-.
  - destruct (edit_loop todo_id d l) as [l0|]; [|done].
    injection H as <-. rewrite !fmap_cons. f_equal. by apply IH.
Qed.

Lemma remove_loop_sublist (todo_id : Z) (l l' : list TodoItem) :
  remove_loop todo_id l = Some l' -> l' `sublist_of` l.
Proof.
  revert l'. induction l as [|x l IH]; intros l' H; simpl in H; [done|].
  destruct (py_eq (id x) (VInt todo_id)).
  - injection H as <-. by constructor.
  - destruct (remove_loop todo_id l) as [l0|]; [|done].
    injection H as <-. constructor. by apply IH.
Qed.

(** The ids of a part of a collection with integer ids are a part of its
    ids. *)
Lemma sublist_int_ids (l' l : list TodoItem) :
  l' `sublist_of` l ->
  forall ids : list Z,
    id <$> l = VInt <$> ids ->
    exists ids', id <$> l' = VInt <$> ids' /\ ids' `sublist_of` ids.
Proof.
  induction 1 as [|x l1 l2 _ IH|x l1 l2 _ IH]; intros ids Hids.
  - exists []. split; [done|apply sublist_nil_l].
  - destruct ids as [|k ids]; [done|]. rewrite !fmap_cons in Hids.
    injection Hids as Hx Hids. destruct (IH ids Hids) as (ids' & Hl1 & Hsub).
    exists (k :: ids'). split; [by rewrite !fmap_cons, Hx, Hl1|by constructor].
  - destruct ids as [|k ids]; [done|]. rewrite !fmap_cons in Hids.
    injection Hids as Hx Hids. destruct (IH ids Hids) as (ids' & Hl1 & Hsub).
    exists ids'. split; [done|by constructor].
Qed.

(** One call on a collection with integer ids: it does not raise, and the
    ids afterwards are a part of the ids before, in the same order, or the
    ids before followed by their maximum plus 1. *)
Lemma step_ids (o : op) (self : TodoManager) (ids : list Z) :
  id <$> todos self = VInt <$> ids ->
  exists r self' ids',
    step o self = Ok (r, self') /\
    id <$> todos self' = VInt <$> ids' /\
    (ids' `sublist_of` ids \/ ids' = ids ++ [max_id ids + 1]).
Proof.
  intros Hids. destruct o as [d now|k|k|k d|]; simpl.
  - rewrite (add_todo_ints now d self ids Hids). simpl.
    eexists _, _, (ids ++ [max_id ids + 1]). split; [done|]. split; [|by right].
    simpl. by rewrite !fmap_app, Hids.
  - unfold complete_todo.
    destruct (complete_loop k (todos self)) as [l|] eqn:Hloop.
    + eexists _, _, ids. split; [done|]. split; [|by left].
      simpl. by rewrite (complete_loop_ids _ _ _ Hloop).
    + eexists _, _, ids. split; [done|]. by split; [|left].
  - unfold remove_todo.
    destruct (remove_loop k (todos self)) as [l|] eqn:Hloop.
    + destruct (sublist_int_ids l (todos self) (remove_loop_sublist _ _ _ Hloop) ids Hids)
        as (ids' & Hl & Hsub).
      eexists _, _, ids'. split; [done|]. by split; [|left].
    + eexists _, _, ids. split; [done|]. by split; [|left].
  - unfold edit_todo.
    destruct (edit_loop k d (todos self)) as [l|] eqn:Hloop.
    + eexists _, _, ids. split; [done|]. split; [|by left].
      simpl. by rewrite (edit_loop_ids _ _ _ _ Hloop).
    + eexists _, _, ids. split; [done|]. by split; [|left].
  - destruct (clear_completed self) as [n self'] eqn:Hclear.
    pose proof (clear_completed_todos self) as Htodos. rewrite Hclear in Htodos.
    simpl in Htodos.
    destruct (sublist_int_ids (todos self') (todos self)) with (ids := ids)
      as (ids' & Hl & Hsub); [rewrite Htodos; apply filter_sublist|done|].
    eexists _, _, ids'. split; [done|]. by split; [|left].
Qed.

Lemma max_id_not_in (ids : list Z) : max_id ids + 1 ∉ ids.
Proof.
  intros Hin. destruct (max_id_spec ids) as [[-> _]|[_ Hall]].
  - by apply elem_of_nil in Hin.
  - rewrite Forall_forall in Hall. apply Hall in Hin. lia.
Qed.

Lemma step_ids_NoDup (ids ids' : list Z) :
  ids' `sublist_of` ids \/ ids' = ids ++ [max_id ids + 1] ->
  NoDup ids -> NoDup ids'.
Proof.
  intros [Hsub| ->] Hnodup; [by eapply sublist_NoDup|].
  apply NoDup_app. split; [done|]. split; [|apply NoDup_singleton].
  intros x Hx Hx'. apply list_elem_of_singleton in Hx' as ->.
  by apply max_id_not_in in Hx.
Qed.

(** A sequence of calls on a collection with integer ids does not raise and
    leaves a collection with integer ids, pairwise distinct if they were. *)
Lemma run_ids (ops : list op) (self : TodoManager) (ids : list Z) :
  id <$> todos self = VInt <$> ids ->
  exists rs self' ids',
    run ops self = Ok (rs, self') /\
    id <$> todos self' = VInt <$> ids' /\
    (NoDup ids -> NoDup ids').
Proof.
  revert self ids. induction ops as [|o ops IH]; intros self ids Hids.
  - by exists [], self, ids.
  - destruct (step_ids o self ids Hids) as (r & self1 & ids1 & Hstep & Hids1 & Hcase).
    destruct (IH self1 ids1 Hids1) as (rs & self' & ids' & Hrun & Hids' & Hnodup).
    exists (r :: rs), self', ids'. split.
    + cbn [run]. rewrite Hstep. simpl. by rewrite Hrun.
    + split; [done|]. intros Hnd. apply Hnodup. by eapply step_ids_NoDup.
Qed.

(** ** Uniqueness of ids *)

(** C9, as stated, fails: construction on a stored document in which two
    records have the same id loads both, so the collection right after
    construction has two records with the id 1. *)
Lemma load_keeps_duplicate_ids :
  TodoManager_init (fun _ => t0) duplicate_ids_document
  = Ok {| todos := [task1; task1']; file := duplicate_ids_document |}
  /\ id task1 = id task1'
  /\ ~ NoDup (id <$> [task1; task1']).
Proof.
  split; [vm_compute; reflexivity|]. split; [reflexivity|].
  intros Hnodup. apply NoDup_cons in Hnodup as [Hnotin _].
  apply Hnotin. simpl. left.
Qed.

(** C9, amended.  From a collection whose ids are pairwise distinct
    integers, every sequence of Add, Complete, Remove, Edit and
    ClearCompleted calls runs without an exception and ends in a collection
    whose ids are pairwise distinct integers.  A manager constructed on a
    missing or unparsable file starts from the empty collection, so this
    holds for every state reachable from it.  (Loading checks no ids: a
    stored document with duplicates is loaded as it is.) *)
Theorem run_keeps_ids_distinct :
  (forall (ops : list op) (self : TodoManager) (ids : list Z),
      id <$> todos self = VInt <$> ids -> NoDup ids ->
      exists rs self' ids',
        run ops self = Ok (rs, self') /\
        id <$> todos self' = VInt <$> ids' /\ NoDup ids')
  /\
  (forall (clock : nat -> string) (disk : storage) (ops : list op),
      disk = Missing \/ disk = Unparsable ->
      exists self rs self' ids',
        TodoManager_init clock disk = Ok self /\
        run ops self = Ok (rs, self') /\
        id <$> todos self' = VInt <$> ids' /\ NoDup ids').
Proof.
  split.
  - intros ops self ids Hids Hnodup.
    destruct (run_ids ops self ids Hids) as (rs & self' & ids' & Hrun & Hids' & Hnd).
    exists rs, self', ids'. auto.
  - intros clock disk ops Hdisk.
    destruct (run_ids ops {| todos := []; file := disk |} []) as
      (rs & self' & ids' & Hrun & Hids' & Hnd); [done|].
    exists {| todos := []; file := disk |}, rs, self', ids'.
    split; [by destruct Hdisk as [->| ->]|].
    split; [done|]. split; [done|]. apply Hnd, NoDup_nil_2.
Qed.

(** ** Reuse of ids *)

(** C1, as stated, fails: after [Add], [Add], [Remove 2] the collection
    still holds the record with id 1, and the next [Add] returns a record
    with the id 2, the id of the record removed before. *)
Lemma add_reuses_removed_id :
  run [Add "Buy milk" t0; Add "Walk dog" t0; Remove 2] empty_manager
  = Ok ([RItem task1; RItem task2; RBool true], saved [task1])
  /\ add_todo t0 "Read book" (saved [task1]) = Ok (task2', saved [task1; task2'])
  /\ id task2' = id task2.
Proof. repeat split; vm_compute; reflexivity. Qed.

(** C1, amended.  Every sequence of Add, Remove, Complete, Edit and
    ClearCompleted calls on an initially empty collection runs without an
    exception, and an Add after it returns a record whose id is an integer
    strictly greater than the id of every record then in the collection, and
    is 1 when the collection is then empty.  So an Add never returns an id
    that is in the collection, nor a removed id while a record with a greater
    or equal id remains; an id can be returned again once every such record
    is gone. *)
Theorem add_todo_id_above_existing (ops : list op) (self0 : TodoManager) :
  todos self0 = [] ->
  exists rs self,
    run ops self0 = Ok (rs, self) /\
    forall now d : string,
    exists n todo self',
      add_todo now d self = Ok (todo, self') /\
      id todo = VInt n /\
      (todos self = [] -> n = 1) /\
      (forall t, t ∈ todos self -> exists k, id t = VInt k /\ k < n).
Proof.
  intros Hnil.
  destruct (run_ids ops self0 []) as (rs & self & ids & Hrun & Hids & _);
    [by rewrite Hnil|].
  exists rs, self. split; [done|]. intros now d.
  eexists (max_id ids + 1), _, _. split; [by apply add_todo_ints|].
  split; [done|]. split.
  - intros Hempty. rewrite Hempty in Hids. by destruct ids.
  - intros t Ht.
    assert (Hin : id t ∈ VInt <$> ids) by (rewrite <- Hids; by apply list_elem_of_fmap_2).
    apply list_elem_of_fmap in Hin as (k & Hk & Hin). exists k. split; [done|].
    destruct (max_id_spec ids) as [[-> _]|[_ Hall]]; [by apply elem_of_nil in Hin|].
    rewrite Forall_forall in Hall. apply Hall in Hin. lia.
Qed.

(** ** The statements at the sample data *)

(** An Add on the two sample records, and two Adds on the empty collection. *)
Lemma add_todo_spec_witness :
  (exists (n : Z) (todo : TodoItem),
      max_existing_id_or_0 [1; 2] n /\
      todo = {| id := VInt (n + 1); description := VStr "Read book";
                completed := VBool false; created_at := VStr t0 |} /\
      add_todo t0 "Read book" sample_manager =
        Ok (todo, {| todos := todos sample_manager ++ [todo];
                     file := Document (dump (todos sample_manager ++ [todo])) |}))
  /\
  (exists (items : list TodoItem) (self' : TodoManager),
      run (adds [("Buy milk", t0); ("Walk dog", t0)]) empty_manager
      = Ok (RItem <$> items, self') /\
      todos self' = items /\
      id <$> items = VInt <$> seqZ 1 2 /\
      description <$> items = [VStr "Buy milk"; VStr "Walk dog"]).
Proof.
  split.
  - apply (proj1 add_todo_spec t0 "Read book" sample_manager [1; 2]). reflexivity.
  - apply (proj2 add_todo_spec [("Buy milk", t0); ("Walk dog", t0)] empty_manager).
    reflexivity.
Defined.

(** Completing the record 2, already completed, and the absent id 999. *)
Lemma complete_todo_spec_witness :
  (exists pre t post,
      todos sample_manager = pre ++ t :: post /\
      Forall (fun u => py_eq (id u) (VInt 2) = false) pre /\
      py_eq (id t) (VInt 2) = true /\
      let l := pre ++ {| id := id t; description := description t;
                         completed := VBool true; created_at := created_at t |}
                   :: post in
      complete_todo 2 sample_manager = (true, {| todos := l; file := Document (dump l) |}) /\
      (completed t = VBool true ->
       complete_todo 2 sample_manager
       = (true, {| todos := todos sample_manager;
                   file := Document (dump (todos sample_manager)) |})))
  /\ complete_todo 999 sample_manager = (false, sample_manager).
Proof.
  split.
  - apply (proj1 (complete_todo_spec 2 sample_manager)).
    exists done2. split; [right; left | reflexivity].
  - apply (proj2 (complete_todo_spec 999 sample_manager)).
    intros t Ht. simpl in Ht. rewrite !elem_of_cons in Ht.
    destruct Ht as [->|[->|Ht]]; [reflexivity..|]. by apply elem_of_nil in Ht.
Defined.

(** Editing the record 2, and the absent id 999. *)
Lemma edit_todo_spec_witness :
  (exists pre t post,
      todos sample_manager = pre ++ t :: post /\
      Forall (fun u => py_eq (id u) (VInt 2) = false) pre /\
      py_eq (id t) (VInt 2) = true /\
      let l := pre ++ {| id := id t; description := VStr "Walk cat";
                         completed := completed t; created_at := created_at t |}
                   :: post in
      edit_todo 2 "Walk cat" sample_manager
      = (true, {| todos := l; file := Document (dump l) |}))
  /\ edit_todo 999 "Walk cat" sample_manager = (false, sample_manager).
Proof.
  split.
  - apply (proj1 (edit_todo_spec 2 "Walk cat" sample_manager)).
    exists done2. split; [right; left | reflexivity].
  - apply (proj2 (edit_todo_spec 999 "Walk cat" sample_manager)).
    intros t Ht. simpl in Ht. rewrite !elem_of_cons in Ht.
    destruct Ht as [->|[->|Ht]]; [reflexivity..|]. by apply elem_of_nil in Ht.
Defined.

(** Clearing the sample collection removes its one completed record. *)
Lemma clear_completed_spec_witness :
  (clear_completed sample_manager).1 = 1
  /\ todos (clear_completed sample_manager).2 = [task1]
  /\ file (clear_completed sample_manager).2 = Document (dump [task1])
  /\ (clear_completed (clear_completed sample_manager).2).1 = 0.
Proof.
  pose proof (clear_completed_spec sample_manager) as H. cbv zeta in H.
  destruct H as (Htodos & _ & _ & Hn & Hfile & _ & Hagain).
  split; [exact Hn|]. split; [exact Htodos|]. split; [|exact Hagain].
  rewrite (Hfile eq_refl). reflexivity.
Defined.

(** [task1] is a valid record and survives the round trip. *)
Lemma roundtrip_valid_record_witness :
  valid_record task1 /\ from_dict t0 (VDict (to_dict task1)) = Ok task1.
Proof.
  assert (Hvalid : valid_record task1).
  { exists 1, "Buy milk"%string, false, t0. split; [reflexivity | discriminate]. }
  split; [exact Hvalid|]. exact (roundtrip_valid_record t0 task1 Hvalid).
Defined.

(** A dict without the key [completed] is refused; the serialization of [task1] is accepted. *)
Lemma from_dict_fails_iff_key_absent_witness :
  (exists e, from_dict t0 (VDict (<["id" := VInt 1]> ∅)) = Raise e)
  /\ from_dict t0 (VDict (to_dict task1)) = Ok task1.
Proof.
  split.
  - apply (proj1 (from_dict_fails_iff_key_absent t0 (<["id" := VInt 1]> ∅))).
    exists "completed"%string. split; [key_in | reflexivity].
  - apply (proj2 (proj2 (proj2 (from_dict_fails_iff_key_absent t0 (to_dict task1))))
             1 "Buy milk"%string false t0);
      [reflexivity..|discriminate].
Defined.

(** The empty timestamp is replaced by the reading [t0]. *)
Lemma empty_created_at_replaced_witness :
  t0 <> ""%string
  /\ created_at (TodoItem_init t0 (VInt 1) (VStr "Buy milk") (VBool false) (VStr "")) = VStr t0
  /\ from_dict t0 (VDict (to_dict {| id := VInt 1; description := VStr "Buy milk";
                                     completed := VBool false; created_at := VStr "" |}))
     <> Ok {| id := VInt 1; description := VStr "Buy milk";
              completed := VBool false; created_at := VStr "" |}.
Proof.
  assert (Hnow : t0 <> ""%string) by discriminate.
  destruct (empty_created_at_replaced t0 Hnow) as (Hinit & _ & Hround).
  split; [exact Hnow|]. split; [apply Hinit|].
  apply Hround. reflexivity.
Defined.

(** A stored list with one complete and one incomplete record loads as
    empty; a list of two complete records, one wrong-shaped and one without
    a timestamp, loads as two records. *)
Lemma load_todos_fallback_witness :
  TodoManager_init (fun _ => t0)
    (Document (VList (VDict <$> [to_dict task1; <["id" := VInt 2]> ∅])))
  = Ok {| todos := [];
          file := Document (VList (VDict <$> [to_dict task1; <["id" := VInt 2]> ∅])) |}
  /\ exists l : list TodoItem,
       TodoManager_init (fun _ => t0)
         (Document (VList (VDict <$> [wrong_shaped_dict; unstamped_dict])))
       = Ok {| todos := l;
               file := Document (VList (VDict <$> [wrong_shaped_dict; unstamped_dict])) |}
       /\ length l = length [wrong_shaped_dict; unstamped_dict]
       /\ forall (j : nat) (d : gmap string pyval),
            [wrong_shaped_dict; unstamped_dict] !! j = Some d ->
            exists t, l !! j = Some t /\ loaded_from t0 d t.
Proof.
  split.
  - apply (proj1 (proj2 (proj2 (load_todos_fallback (fun _ => t0))))).
    apply Exists_cons_tl, Exists_cons_hd.
    exists "description"%string. split; [key_in | reflexivity].
  - apply (proj2 (proj2 (proj2 (load_todos_fallback (fun _ => t0))))).
    apply Forall_cons_2; [|apply Forall_cons_2; [|apply Forall_nil_2]];
      intros k Hk; unfold required_keys in Hk; rewrite !elem_of_cons in Hk;
      (destruct Hk as [->|[->|[->|[->|Hk]]]];
         [eexists; reflexivity..|by apply elem_of_nil in Hk]).
Defined.

(** Calls on the sample collection, and on a manager built on an unparsable file. *)
Lemma run_keeps_ids_distinct_witness :
  (exists rs self' ids',
      run [Remove 1; Add "Read book" t0; ClearCompleted] sample_manager = Ok (rs, self') /\
      id <$> todos self' = VInt <$> ids' /\ NoDup ids')
  /\
  (exists self rs self' ids',
      TodoManager_init (fun _ => t0) Unparsable = Ok self /\
      run [Add "Buy milk" t0; Add "Walk dog" t0; Remove 2; Add "Read book" t0] self
      = Ok (rs, self') /\
      id <$> todos self' = VInt <$> ids' /\ NoDup ids').
Proof.
  split.
  - apply (proj1 run_keeps_ids_distinct _ sample_manager [1; 2]); [reflexivity|].
    apply NoDup_cons_2; [|apply NoDup_singleton].
    intros Hin. apply list_elem_of_singleton in Hin. discriminate.
  - apply (proj2 run_keeps_ids_distinct). by right.
Defined.

(** An Add after two Adds and the removal of the second record. *)
Lemma add_todo_id_above_existing_witness :
  exists rs self,
    run [Add "Buy milk" t0; Add "Walk dog" t0; Remove 2] empty_manager = Ok (rs, self) /\
    forall now d : string,
    exists n todo self',
      add_todo now d self = Ok (todo, self') /\
      id todo = VInt n /\
      (todos self = [] -> n = 1) /\
      (forall t, t ∈ todos self -> exists k, id t = VInt k /\ k < n).
Proof.
  apply (add_todo_id_above_existing
           [Add "Buy milk" t0; Add "Walk dog" t0; Remove 2] empty_manager).
  reflexivity.
Defined.

(** * Further properties *)

(** ** Looking up after an operation *)

(** A scan for an id either finds no record, or stops at a first one. *)
Lemma scan_cases (todo_id : Z) (l : list TodoItem) :
  Forall (fun u => py_eq (id u) (VInt todo_id) = false) l
  \/ exists pre t post,
       l = pre ++ t :: post /\
       Forall (fun u => py_eq (id u) (VInt todo_id) = false) pre /\
       py_eq (id t) (VInt todo_id) = true.
Proof.
  induction l as [|x l IH]; [by left|].
  destruct (py_eq (id x) (VInt todo_id)) eqn:Hx.
  - right. exists [], x, l. by repeat split.
  - destruct IH as [Hnone|(pre & t & post & -> & Hpre & Ht)].
    + left. by constructor.
    + right. exists (x :: pre), t, post. repeat split; [|done]. by constructor.
Qed.

Lemma get_todo_loop_app (todo_id : Z) (l1 l2 : list TodoItem) :
  get_todo_loop todo_id (l1 ++ l2)
  = match get_todo_loop todo_id l1 with
    | Some t => Some t
    | None => get_todo_loop todo_id l2
    end.
Proof.
  induction l1 as [|x l1 IH]; simpl; [done|].
  by destruct (py_eq (id x) (VInt todo_id)).
Qed.

Lemma py_eq_ints (x y : Z) : py_eq (VInt x) (VInt y) = true <-> x = y.
Proof. simpl. apply Z.eqb_eq. Qed.

(** In a collection with pairwise distinct integer ids, the records after
    the first record with an id do not have that id. *)
Lemma distinct_ids_after (todo_id : Z) (pre post : list TodoItem) (t : TodoItem)
    (ids : list Z) :
  id <$> pre ++ t :: post = VInt <$> ids -> NoDup ids ->
  py_eq (id t) (VInt todo_id) = true ->
  Forall (fun u => py_eq (id u) (VInt todo_id) = false) post.
Proof.
  intros Hids Hnodup Ht. rewrite fmap_app, fmap_cons in Hids.
  symmetry in Hids. apply fmap_app_inv in Hids as (ids1 & ids' & Hpre & Hrest & ->).
  destruct ids' as [|k ids2]; [done|]. rewrite fmap_cons in Hrest.
  injection Hrest as Hk Hpost.
  rewrite Hk in Ht. apply py_eq_ints in Ht as ->.
  apply NoDup_app in Hnodup as (_ & _ & Hnd). apply NoDup_cons in Hnd as [Hnotin _].
  clear Hk Hpre. revert ids2 Hpost Hnotin.
  induction post as [|u post IH]; intros ids2 Hpost Hnotin; [constructor|].
  destruct ids2 as [|j ids2]; [done|]. rewrite !fmap_cons in Hpost.
  injection Hpost as Hj Hpost. constructor.
  - rewrite Hj. simpl. apply Z.eqb_neq. intros ->. apply Hnotin. left.
  - apply (IH ids2); [done|]. intros Hin. apply Hnotin. by right.
Qed.

(** The three operations that look a record up by id succeed exactly when
    [get_todo] finds a record with that id. *)
Theorem find_by_id_agree (todo_id : Z) (new_description : string) (self : TodoManager) :
  ((complete_todo todo_id self).1 = true <-> is_Some (get_todo todo_id self))
  /\ ((remove_todo todo_id self).1 = true <-> is_Some (get_todo todo_id self))
  /\ ((edit_todo todo_id new_description self).1 = true
      <-> is_Some (get_todo todo_id self)).
Proof.
  unfold complete_todo, remove_todo, edit_todo, get_todo.
  destruct (scan_cases todo_id (todos self)) as [Hnone|(pre & t & post & -> & Hpre & Ht)].
  - rewrite complete_loop_none, remove_loop_none, edit_loop_none,
      get_todo_loop_none by done.
    simpl. repeat split; try discriminate; intros [? ?]; discriminate.
  - rewrite complete_loop_found, remove_loop_found, edit_loop_found,
      get_todo_loop_found by done.
    simpl. repeat split; eauto.
Qed.

(** With pairwise distinct integer ids, a successful [remove_todo] leaves no
    record with the id: [get_todo] then finds nothing, a second
    [remove_todo] returns [False] and changes nothing, and the collection is
    one record shorter. *)
Theorem remove_todo_then_absent (todo_id : Z) (self self' : TodoManager) (ids : list Z) :
  id <$> todos self = VInt <$> ids -> NoDup ids ->
  remove_todo todo_id self = (true, self') ->
  get_todo todo_id self' = None
  /\ remove_todo todo_id self' = (false, self')
  /\ S (length (todos self')) = length (todos self).
Proof.
  intros Hids Hnodup Hremove. unfold remove_todo in Hremove.
  destruct (scan_cases todo_id (todos self)) as [Hnone|(pre & t & post & Hl & Hpre & Ht)].
  { by rewrite remove_loop_none in Hremove. }
  rewrite Hl, remove_loop_found in Hremove by done. injection Hremove as <-.
  rewrite Hl in Hids.
  assert (Hall : Forall (fun u => py_eq (id u) (VInt todo_id) = false) (pre ++ post)).
  { apply Forall_app. split; [done|]. by eapply distinct_ids_after. }
  unfold get_todo, remove_todo; simpl.
  rewrite get_todo_loop_none, remove_loop_none by done.
  split; [done|]. split; [done|]. rewrite Hl, !length_app. simpl. lia.
Qed.

(** On a collection with integer ids, the record [add_todo] returns is the
    one [get_todo] finds under its id afterwards; no record had that id
    before, and the lookup of every other id is unchanged. *)
Theorem add_todo_then_get (now d : string) (self : TodoManager) (ids : list Z) :
  id <$> todos self = VInt <$> ids ->
  exists n todo self',
    add_todo now d self = Ok (todo, self') /\
    id todo = VInt n /\
    get_todo n self = None /\
    get_todo n self' = Some todo /\
    forall k, k <> n -> get_todo k self' = get_todo k self.
Proof.
  intros Hids. pose proof (add_todo_ints now d self ids Hids) as Hadd. cbv zeta in Hadd.
  eexists (max_id ids + 1), _, _. split; [exact Hadd|]. split; [done|].
  assert (Hnone : get_todo_loop (max_id ids + 1) (todos self) = None).
  { apply get_todo_loop_none, Forall_forall. intros u Hu.
    assert (Hin : id u ∈ VInt <$> ids) by (rewrite <- Hids; by apply list_elem_of_fmap_2).
    apply list_elem_of_fmap in Hin as (k & -> & Hk). simpl. apply Z.eqb_neq.
    intros ->. by apply max_id_not_in in Hk. }
  unfold get_todo; simpl. split; [done|]. split.
  - rewrite get_todo_loop_app, Hnone. simpl. by rewrite Z.eqb_refl.
  - intros k Hk. rewrite get_todo_loop_app.
    destruct (get_todo_loop k (todos self)); [done|]. simpl.
    destruct (Z.eqb_spec (max_id ids + 1) k); [congruence|done].
Qed.

(** After a successful [complete_todo], [get_todo] returns the record it
    found before with its flag set, and a second call returns [True] again
    and changes neither the collection nor the file. *)
Theorem complete_todo_then_get (todo_id : Z) (self self' : TodoManager) :
  complete_todo todo_id self = (true, self') ->
  exists t,
    get_todo todo_id self = Some t /\
    get_todo todo_id self' = Some (set_completed t (VBool true)) /\
    complete_todo todo_id self' = (true, self').
Proof.
  intros Hcomplete. unfold complete_todo in Hcomplete.
  destruct (scan_cases todo_id (todos self)) as [Hnone|(pre & t & post & Hl & Hpre & Ht)].
  { by rewrite complete_loop_none in Hcomplete. }
  rewrite Hl, complete_loop_found in Hcomplete by done. injection Hcomplete as <-.
  exists t. unfold get_todo, complete_todo; simpl.
  rewrite Hl, get_todo_loop_found by done.
  rewrite get_todo_loop_found, complete_loop_found by done. done.
Qed.

(** After a successful [edit_todo], [get_todo] returns the record it found
    before with the new description; the ids, flags and timestamps of the
    collection, in order, are what they were. *)
Theorem edit_todo_then_get (todo_id : Z) (d : string) (self self' : TodoManager) :
  edit_todo todo_id d self = (true, self') ->
  exists t,
    get_todo todo_id self = Some t /\
    get_todo todo_id self' = Some (set_description t (VStr d)) /\
    id <$> todos self' = id <$> todos self /\
    completed <$> todos self' = completed <$> todos self /\
    created_at <$> todos self' = created_at <$> todos self.
Proof.
  intros Hedit. unfold edit_todo in Hedit.
  destruct (scan_cases todo_id (todos self)) as [Hnone|(pre & t & post & Hl & Hpre & Ht)].
  { by rewrite edit_loop_none in Hedit. }
  rewrite Hl, edit_loop_found in Hedit by done. injection Hedit as <-.
  exists t. unfold get_todo; simpl.
  rewrite Hl, !get_todo_loop_found by done.
  by rewrite !fmap_app, !fmap_cons.
Qed.

(** ** Listing *)

(** [list_todos(True)] is the whole collection.  [list_todos(False)] keeps,
    in order, exactly the records whose flag is not set; it is what
    [clear_completed] leaves in the collection, so after [clear_completed]
    both listings are the same. *)
Theorem list_todos_pending (self : TodoManager) :
  list_todos true self = todos self
  /\ list_todos false self `sublist_of` todos self
  /\ (forall t, t ∈ list_todos false self
                <-> t ∈ todos self /\ truthy (completed t) = false)
  /\ todos (clear_completed self).2 = list_todos false self
  /\ list_todos false (clear_completed self).2 = list_todos true (clear_completed self).2.
Proof.
  split; [done|]. split; [apply filter_sublist|]. split.
  { intros t. unfold list_todos. rewrite filter_elem_of. by rewrite negb_true_iff. }
  split; [apply clear_completed_todos|].
  unfold list_todos. rewrite clear_completed_todos. unfold pending.
  apply filter_keeps_all. f_equal.
  induction (todos self) as [|x l IH]; simpl; [done|].
  destruct (truthy (completed x)) eqn:Hx; simpl; [done|]. by rewrite Hx, IH.
Qed.

(** With pairwise distinct integer ids, a record completed by
    [complete_todo] is no longer listed as pending: no record of
    [list_todos(False)] has the id afterwards. *)
Theorem complete_todo_not_pending (todo_id : Z) (self self' : TodoManager) (ids : list Z) :
  id <$> todos self = VInt <$> ids -> NoDup ids ->
  complete_todo todo_id self = (true, self') ->
  forall t, t ∈ list_todos false self' -> py_eq (id t) (VInt todo_id) = false.
Proof.
  intros Hids Hnodup Hcomplete t Hin. unfold complete_todo in Hcomplete.
  destruct (scan_cases todo_id (todos self)) as [Hnone|(pre & x & post & Hl & Hpre & Hx)].
  { by rewrite complete_loop_none in Hcomplete. }
  rewrite Hl, complete_loop_found in Hcomplete by done. injection Hcomplete as <-.
  rewrite Hl in Hids.
  pose proof (distinct_ids_after todo_id pre post x ids Hids Hnodup Hx) as Hpost.
  unfold list_todos in Hin; simpl in Hin.
  apply filter_elem_of in Hin as [Hin Hflag].
  rewrite Forall_forall in Hpre, Hpost.
  apply elem_of_app in Hin as [Hin|Hin]; [by apply Hpre|].
  apply elem_of_cons in Hin as [->|Hin]; [done|by apply Hpost].
Qed.

(** ** The number of records *)

Lemma clear_completed_cases (self : TodoManager) :
  clear_completed self = (0, self)
  \/ exists n, 0 < n /\ clear_completed self = (n, saved (pending (todos self))).
Proof.
  pose proof (filter_split_length (fun todo => truthy (completed todo)) (todos self)) as Hlen.
  pose proof (filter_length_bound (fun todo => negb (truthy (completed todo))) (todos self)).
  unfold clear_completed; cbv zeta.
  destruct (_ >? 0) eqn:Hgt; simpl in *.
  - right. eexists. split; [|reflexivity]. lia.
  - left. assert (Heq : length (List.filter (fun todo => negb (truthy (completed todo)))
                                            (todos self)) = length (todos self)) by lia.
    rewrite (filter_keeps_all _ _ Heq). destruct self. unfold set_todos; simpl.
    f_equal. lia.
Qed.

(** An operation changes the number of records by what it returns: [Add]
    adds one, a [Remove] that returns [True] takes one away,
    [ClearCompleted] takes away the count it returns, and everything else
    (also a [Remove] that returns [False]) leaves the number as it is. *)
Theorem step_size (o : op) (r : ret) (self self' : TodoManager) :
  step o self = Ok (r, self') ->
  Z.of_nat (length (todos self')) = Z.of_nat (length (todos self)) + size_change o r.
Proof.
  destruct o as [d now|k|k|k d|]; simpl; intros Hstep.
  - destruct (add_todo now d self) as [[todo self1]|e] eqn:Hadd; [|done].
    simpl in Hstep. injection Hstep as <- <-. unfold add_todo in Hadd.
    destruct (py_max _ _) as [m|]; [|done]. simpl in Hadd.
    destruct (py_add _ _) as [new_id|]; [|done]. simpl in Hadd.
    injection Hadd as <- <-. simpl. rewrite length_app. simpl. lia.
  - unfold complete_todo in Hstep.
    destruct (scan_cases k (todos self)) as [Hnone|(pre & t & post & Hl & Hpre & Ht)].
    + rewrite complete_loop_none in Hstep by done. injection Hstep as <- <-. lia.
    + rewrite Hl, complete_loop_found in Hstep by done. injection Hstep as <- <-.
      simpl. rewrite Hl, !length_app. simpl. lia.
  - unfold remove_todo in Hstep.
    destruct (scan_cases k (todos self)) as [Hnone|(pre & t & post & Hl & Hpre & Ht)].
    + rewrite remove_loop_none in Hstep by done. injection Hstep as <- <-. simpl. lia.
    + rewrite Hl, remove_loop_found in Hstep by done. injection Hstep as <- <-.
      simpl. rewrite Hl, !length_app. simpl. lia.
  - unfold edit_todo in Hstep.
    destruct (scan_cases k (todos self)) as [Hnone|(pre & t & post & Hl & Hpre & Ht)].
    + rewrite edit_loop_none in Hstep by done. injection Hstep as <- <-. lia.
    + rewrite Hl, edit_loop_found in Hstep by done. injection Hstep as <- <-.
      simpl. rewrite Hl, !length_app. simpl. lia.
  - pose proof (clear_completed_count self) as Hn.
    pose proof (clear_completed_todos self) as Htodos.
    pose proof (filter_split_length (fun todo => truthy (completed todo)) (todos self)).
    destruct (clear_completed self) as [n self1]. injection Hstep as <- <-.
    simpl in *. rewrite Htodos. unfold pending. lia.
Qed.

(** ** Saving and loading *)

Lemma Forall_sublist_of {A : Type} (P : A -> Prop) (l1 l2 : list A) :
  l1 `sublist_of` l2 -> Forall P l2 -> Forall P l1.
Proof.
  induction 1 as [|x l1 l2 _ IH|x l1 l2 _ IH]; intros Hall; [done|..].
  - apply Forall_cons in Hall as [Hx Hall]. constructor; auto.
  - apply Forall_cons in Hall as [_ Hall]. auto.
Qed.

(** The comprehension of [load_todos] over what [save_todos] wrote gives
    the records back when their timestamps are truthy. *)
Lemma from_dict_all_dump (clock : nat -> string) (l : list TodoItem) (i : nat) :
  Forall (fun t => truthy (created_at t) = true) l ->
  from_dict_all clock i ((fun todo => VDict (to_dict todo)) <$> l) = Ok l.
Proof.
  intros Hall. revert i. induction Hall as [|x l Hx _ IH]; intros i; [done|].
  rewrite fmap_cons. cbn [from_dict_all].
  rewrite (from_dict_to_dict _ _ Hx). simpl. by rewrite IH.
Qed.

Lemma load_dump (clock : nat -> string) (l : list TodoItem) :
  Forall (fun t => truthy (created_at t) = true) l ->
  TodoManager_init clock (Document (dump l)) = Ok (saved l).
Proof.
  intros Hall. unfold TodoManager_init, load_todos, dump; simpl.
  by rewrite from_dict_all_dump.
Qed.

(** A record built by the constructor at a non-empty clock reading has a
    truthy timestamp. *)
Lemma init_truthy (now : string) (i d c ts : pyval) :
  now <> "" -> truthy (created_at (TodoItem_init now i d c ts)) = true.
Proof.
  intros Hnow. unfold TodoItem_init; simpl.
  destruct (truthy ts) eqn:Hts; [done|]. by apply nonempty_truthy.
Qed.

Lemma from_dict_truthy (now : string) (data : pyval) (t : TodoItem) :
  now <> "" -> from_dict now data = Ok t -> truthy (created_at t) = true.
Proof.
  intros Hnow. unfold from_dict.
  destruct (py_getitem data "id") as [i|]; [|done].
  destruct (py_getitem data "description") as [d|]; [|done].
  destruct (py_getitem data "completed") as [c|]; [|done].
  destruct (py_getitem data "created_at") as [ts|]; [|done].
  simpl. intros [= <-]. by apply init_truthy.
Qed.

Lemma from_dict_all_truthy (clock : nat -> string) (items : list pyval) :
  (forall i, clock i <> "") ->
  forall (i : nat) (l : list TodoItem),
    from_dict_all clock i items = Ok l ->
    Forall (fun t => truthy (created_at t) = true) l.
Proof.
  intros Hclock. induction items as [|item items IH]; intros i l; simpl.
  - by intros [= <-].
  - destruct (from_dict (clock i) item) as [t|] eqn:Ht; [|done]. simpl.
    destruct (from_dict_all clock (S i) items) as [l'|] eqn:Hl'; [|done]. simpl.
    intros [= <-]. constructor; [by eapply from_dict_truthy|by eapply IH].
Qed.

(** What construction leaves: the file as it found it, and records with
    truthy timestamps when the clock readings are not empty. *)
Lemma init_state (clock : nat -> string) (disk : storage) (self : TodoManager) :
  TodoManager_init clock disk = Ok self ->
  file self = disk
  /\ ((forall i, clock i <> "") ->
      Forall (fun t => truthy (created_at t) = true) (todos self)).
Proof.
  unfold TodoManager_init, load_todos; simpl.
  destruct disk as [| |data]; try (intros [= <-]; by split).
  destruct (py_iter data) as [items|e]; simpl.
  - destruct (from_dict_all clock 0 items) as [l|e] eqn:Hl.
    + intros [= <-]. split; [done|]. intros Hclock. by eapply from_dict_all_truthy.
    + destruct e; intros [= <-]; by split.
  - destruct e; intros [= <-]; by split.
Qed.

(** An operation either leaves the manager as it is or leaves the file
    holding the whole collection. *)
Lemma step_saved (o : op) (r : ret) (self self' : TodoManager) :
  step o self = Ok (r, self') -> self' = self \/ self' = saved (todos self').
Proof.
  destruct o as [d now|k|k|k d|]; simpl.
  - destruct (add_todo now d self) as [[todo self1]|e] eqn:Hadd; [|done].
    simpl. intros [= <- <-]. right. unfold add_todo in Hadd.
    destruct (py_max _ _) as [m|]; [|done]. simpl in Hadd.
    destruct (py_add _ _) as [new_id|]; [|done]. simpl in Hadd.
    by injection Hadd as <- <-.
  - unfold complete_todo. destruct (complete_loop k (todos self)); intros [= <- <-]; auto.
  - unfold remove_todo. destruct (remove_loop k (todos self)); intros [= <- <-]; auto.
  - unfold edit_todo. destruct (edit_loop k d (todos self)); intros [= <- <-]; auto.
  - destruct (clear_completed_cases self) as [->|(n & _ & ->)]; intros [= <- <-]; auto.
Qed.

(** An operation keeps the timestamps truthy. *)
Lemma step_truthy (o : op) (r : ret) (self self' : TodoManager) :
  clock_read o ->
  Forall (fun t => truthy (created_at t) = true) (todos self) ->
  step o self = Ok (r, self') ->
  Forall (fun t => truthy (created_at t) = true) (todos self').
Proof.
  intros Hclock Hall. destruct o as [d now|k|k|k d|]; simpl.
  - destruct (add_todo now d self) as [[todo self1]|e] eqn:Hadd; [|done].
    simpl. intros [= <- <-]. unfold add_todo in Hadd.
    destruct (py_max _ _) as [m|]; [|done]. simpl in Hadd.
    destruct (py_add _ _) as [new_id|]; [|done]. simpl in Hadd.
    injection Hadd as <- <-. simpl. apply Forall_app. split; [done|].
    repeat constructor. by apply init_truthy.
  - unfold complete_todo.
    destruct (scan_cases k (todos self)) as [Hnone|(pre & t & post & Hl & Hpre & Ht)].
    + rewrite complete_loop_none by done. by intros [= <- <-].
    + rewrite Hl, complete_loop_found by done. intros [= <- <-]. simpl.
      rewrite Hl in Hall. apply Forall_app in Hall as [Hp Hq].
      apply Forall_cons in Hq as [Hx Hq]. apply Forall_app. split; [done|]. by constructor.
  - unfold remove_todo.
    destruct (scan_cases k (todos self)) as [Hnone|(pre & t & post & Hl & Hpre & Ht)].
    + rewrite remove_loop_none by done. by intros [= <- <-].
    + rewrite Hl, remove_loop_found by done. intros [= <- <-]. simpl.
      rewrite Hl in Hall. apply Forall_app in Hall as [Hp Hq].
      apply Forall_cons in Hq as [Hx Hq]. by apply Forall_app.
  - unfold edit_todo.
    destruct (scan_cases k (todos self)) as [Hnone|(pre & t & post & Hl & Hpre & Ht)].
    + rewrite edit_loop_none by done. by intros [= <- <-].
    + rewrite Hl, edit_loop_found by done. intros [= <- <-]. simpl.
      rewrite Hl in Hall. apply Forall_app in Hall as [Hp Hq].
      apply Forall_cons in Hq as [Hx Hq]. apply Forall_app. split; [done|]. by constructor.
  - pose proof (clear_completed_todos self) as Htodos.
    destruct (clear_completed self) as [n self1]. intros [= <- <-]. simpl in Htodos.
    rewrite Htodos. eapply Forall_sublist_of; [apply filter_sublist|done].
Qed.

(** A manager constructed on the file that [save_todos] wrote holds the
    saved collection again, in the same order, when every record's timestamp
    is truthy. *)
Theorem save_then_load (clock : nat -> string) (self : TodoManager) :
  Forall (fun t => truthy (created_at t) = true) (todos self) ->
  TodoManager_init clock (file (save_todos self)) = Ok (save_todos self).
Proof. intros Hall. simpl. by apply load_dump. Qed.

(** A sequence of operations from a state with truthy timestamps ends in
    the state [start], if it was there and nothing was written since, or in a
    state whose file loads back to its collection under any clock. *)
Lemma run_reloads (start : TodoManager) (ops : list op) :
  Forall clock_read ops ->
  forall (rs : list ret) (self0 self : TodoManager),
    Forall (fun t => truthy (created_at t) = true) (todos self0) ->
    self0 = start \/ (forall clock', TodoManager_init clock' (file self0) = Ok self0) ->
    run ops self0 = Ok (rs, self) ->
    self = start \/ (forall clock', TodoManager_init clock' (file self) = Ok self).
Proof.
  induction 1 as [|o ops Ho _ IH]; intros rs self0 self Htruthy Hreload; simpl.
  - by intros [= <- <-].
  - destruct (step o self0) as [[r self1]|] eqn:Hstep; [|done]. simpl.
    destruct (run ops self1) as [[rs' self2]|] eqn:Hrun; [|done]. simpl.
    intros [= <- <-].
    pose proof (step_truthy o r self0 self1 Ho Htruthy Hstep) as Htruthy1.
    apply (IH rs' self1); [done| |done].
    destruct (step_saved o r self0 self1 Hstep) as [->|Hsaved]; [done|].
    right. intros clock'. rewrite Hsaved at 1 2. simpl. by apply load_dump.
Qed.

(** What is on disk loads back to what is in memory: after construction
    and any sequence of operations, with clock readings that are not empty,
    either no operation has written the file and the manager is as it was
    constructed, or a manager constructed on the file as it then is, at any
    later time, holds exactly the same collection. *)
Theorem reload_after_run (clock : nat -> string) (disk : storage)
    (ops : list op) (rs : list ret) (self0 self : TodoManager) :
  (forall i, clock i <> "") ->
  Forall clock_read ops ->
  TodoManager_init clock disk = Ok self0 ->
  run ops self0 = Ok (rs, self) ->
  self = self0 \/ forall clock', TodoManager_init clock' (file self) = Ok self.
Proof.
  intros Hclock Hops Hinit Hrun.
  destruct (init_state clock disk self0 Hinit) as [_ Htruthy].
  apply (run_reloads self0 ops Hops rs self0 self); auto.
Qed.

(** [to_dict] has exactly the four keys and loses nothing: records with
    the same serialization are equal, and so are collections with the same
    saved document. *)
Theorem to_dict_injective (x : TodoItem) :
  dom (to_dict x) = list_to_set required_keys
  /\ (forall y, to_dict x = to_dict y -> x = y)
  /\ (forall l l' : list TodoItem, dump l = dump l' -> l = l').
Proof.
  assert (Hinj : forall a b, to_dict a = to_dict b -> a = b).
  { intros a b Heq.
    destruct (to_dict_lookup a) as (Hi & Hd & Hc & Ht).
    destruct (to_dict_lookup b) as (Hi' & Hd' & Hc' & Ht').
    rewrite Heq in Hi, Hd, Hc, Ht.
    destruct a, b; simpl in *. congruence. }
  split; [|split; [apply Hinj|]].
  - unfold to_dict, required_keys. rewrite !dom_insert_L, dom_empty_L. simpl.
    by rewrite !(assoc_L (∪)).
  - intros l. induction l as [|a l IH]; intros [|b l']; unfold dump;
      rewrite ?fmap_cons; try done.
    intros Heq.
    assert (Hab : to_dict a = to_dict b) by congruence.
    assert (Hrest : dump l = dump l') by (unfold dump; congruence).
    f_equal; [by apply Hinj|by apply IH].
Qed.

(** ** Documents that are not a list of complete records *)

Lemma from_dict_has_keys (now : string) (d : gmap string pyval) :
  has_required_keys d -> exists t, from_dict now (VDict d) = Ok t.
Proof.
  intros Hkeys. rewrite from_dict_dict.
  destruct (Hkeys "id") as [i ->]; [key_in|].
  destruct (Hkeys "description") as [ds ->]; [key_in|].
  destruct (Hkeys "completed") as [c ->]; [key_in|].
  destruct (Hkeys "created_at") as [ts ->]; [key_in|]. eauto.
Qed.

Lemma from_dict_not_dict (now : string) (x : pyval) :
  (forall d, x <> VDict d) -> from_dict now x = Raise TypeError.
Proof. intros Hx. destruct x; try done. by destruct (Hx d). Qed.

Lemma from_dict_all_not_dict (clock : nat -> string) (ds : list (gmap string pyval))
    (x : pyval) (rest : list pyval) (i : nat) :
  Forall has_required_keys ds -> (forall d, x <> VDict d) ->
  from_dict_all clock i ((VDict <$> ds) ++ x :: rest) = Raise TypeError.
Proof.
  intros Hds Hx. revert i. induction Hds as [|d ds Hd _ IH]; intros i; simpl.
  - by rewrite from_dict_not_dict.
  - destruct (from_dict_has_keys (clock i) d Hd) as [t ->]. simpl. by rewrite IH.
Qed.

(** Construction never writes the file.  An empty list, an empty dict and
    an empty string load as the empty collection.  Construction raises
    [TypeError], which [load_todos] does not catch, when the document is
    [None], a boolean or an integer, a non-empty string, a non-empty dict, or
    a list whose first element that is not a complete record is not a dict
    at all. *)
Theorem load_todos_type_error (clock : nat -> string) :
  (forall disk self, TodoManager_init clock disk = Ok self -> file self = disk)
  /\ (forall data, data = VList [] \/ data = VDict ∅ \/ data = VStr "" ->
        TodoManager_init clock (Document data)
        = Ok {| todos := []; file := Document data |})
  /\ (forall data,
        data = VNone \/ (exists b, data = VBool b) \/ (exists z, data = VInt z)
        \/ (exists s, data = VStr s /\ s <> "")
        \/ (exists d, data = VDict d /\ d <> ∅) ->
        TodoManager_init clock (Document data) = Raise TypeError)
  /\ (forall (ds : list (gmap string pyval)) (x : pyval) (rest : list pyval),
        Forall has_required_keys ds -> (forall d, x <> VDict d) ->
        TodoManager_init clock (Document (VList ((VDict <$> ds) ++ x :: rest)))
        = Raise TypeError).
Proof.
  split; [|split; [|split]].
  - intros disk self Hinit. by destruct (init_state clock disk self Hinit).
  - by intros data [->|[->| ->]].
  - intros data [->|[[b ->]|[[z ->]|[(s & -> & Hs)|(d & -> & Hd)]]]]; try done.
    + unfold TodoManager_init, load_todos; simpl. by destruct s.
    + unfold TodoManager_init, load_todos; simpl.
      destruct (map_to_list d) as [|[k v] kvs] eqn:Hkvs; [|done].
      by apply map_to_list_empty_iff in Hkvs.
  - intros ds x rest Hds Hx. unfold TodoManager_init, load_todos; simpl.
    by rewrite from_dict_all_not_dict.
Qed.

(** ** Ids that are not integers *)

Lemma py_gt_nums (a b : pyval) (x y : Z) :
  as_num a = Some x -> as_num b = Some y -> py_gt a b = Ok (x >? y).
Proof. destruct a, b; simpl; congruence. Qed.

Lemma max_loop_nums (l : list pyval) (nums : list Z) (m : pyval) (x : Z) :
  as_num m = Some x -> as_num <$> l = Some <$> nums ->
  exists v, max_loop m l = Ok v /\ as_num v = Some (fold_left Z.max nums x).
Proof.
  revert nums m x. induction l as [|item l IH]; intros nums m x Hm Hl.
  - destruct nums; [|done]. by exists m.
  - destruct nums as [|y nums]; [done|]. rewrite !fmap_cons in Hl.
    injection Hl as Hitem Hl. cbn [max_loop]. rewrite (py_gt_nums _ _ _ _ Hitem Hm).
    simpl. destruct (Z.gtb_spec y x).
    + rewrite Z.max_r by lia. by apply IH.
    + rewrite Z.max_l by lia. by apply IH.
Qed.

(** A comparison that fails fails with [TypeError]. *)
Lemma py_gt_raises : forall (a b : pyval) (e : exn), py_gt a b = Raise e -> e = TypeError.
Proof.
  fix py_gt_raises 1.
  intros a b e. destruct a as [|x|x|s|l|d], b as [|y|y|t|m|d']; simpl; try congruence.
  revert m. induction l as [|u l IHl]; intros [|w m]; simpl; try congruence.
  destruct (py_eq u w); [apply IHl|apply py_gt_raises].
Qed.

(** With a running maximum that is not a number, the loop of [max] fails
    with [TypeError] or ends with a value that is not a number. *)
Lemma max_loop_not_num (l : list pyval) (m : pyval) :
  as_num m = None ->
  match max_loop m l with
  | Ok v => as_num v = None
  | Raise e => e = TypeError
  end.
Proof.
  revert m. induction l as [|item l IH]; intros m Hm; [done|].
  cbn [max_loop]. destruct (py_gt item m) as [g|e] eqn:Hgt; simpl.
  - apply IH. destruct g; [|done].
    destruct item, m; simpl in *; congruence.
  - by apply py_gt_raises in Hgt.
Qed.

Lemma max_loop_num_then_not (l : list pyval) (m : pyval) (x : Z) :
  as_num m = Some x -> Exists (fun v => as_num v = None) l ->
  match max_loop m l with
  | Ok v => as_num v = None
  | Raise e => e = TypeError
  end.
Proof.
  intros Hm Hex. revert m x Hm.
  induction Hex as [item l Hitem|item l _ IH]; intros m x Hm; cbn [max_loop].
  - assert (Hgt : py_gt item m = Raise TypeError)
      by (destruct item, m; simpl in *; congruence).
    by rewrite Hgt.
  - destruct (as_num item) as [y|] eqn:Hitem.
    + rewrite (py_gt_nums _ _ _ _ Hitem Hm). simpl.
      destruct (y >? x); by eapply IH.
    + assert (Hgt : py_gt item m = Raise TypeError)
        by (destruct item, m; simpl in *; congruence).
      by rewrite Hgt.
Qed.

(** [add_todo] succeeds exactly on collections whose ids are all numbers
    (integers or booleans, which count as 0 and 1), and the new id is then
    their maximum (0 if there is none) plus 1; when some id is not a number
    it raises [TypeError]. *)
Theorem add_todo_type_error (now d : string) (self : TodoManager) :
  (forall nums : list Z,
      (fun t => as_num (id t)) <$> todos self = Some <$> nums ->
      exists n todo self',
        max_existing_id_or_0 nums n /\
        add_todo now d self = Ok (todo, self') /\ id todo = VInt (n + 1))
  /\ (Exists (fun t => as_num (id t) = None) (todos self) ->
      add_todo now d self = Raise TypeError).
Proof.
  split.
  - intros nums Hnums. exists (max_id nums). unfold add_todo.
    assert (Hmax : exists v, py_max (id <$> todos self) (VInt 0) = Ok v
                             /\ as_num v = Some (max_id nums)).
    { assert (Hnums' : as_num <$> (id <$> todos self) = Some <$> nums)
        by (by rewrite <- list_fmap_compose).
      destruct (id <$> todos self) as [|v l].
      - destruct nums; [|done]. by exists (VInt 0).
      - destruct nums as [|x nums]; [done|]. rewrite !fmap_cons in Hnums'.
        injection Hnums' as Hv Hl. simpl. by apply (max_loop_nums _ nums _ x). }
    destruct Hmax as (v & -> & Hv). simpl.
    assert (Hadd : py_add v (VInt 1) = Ok (VInt (max_id nums + 1)))
      by (destruct v; simpl in *; congruence).
    rewrite Hadd. simpl. eexists _, _. split; [apply max_id_spec|]. by split.
  - intros Hex. unfold add_todo.
    assert (Hmax : match py_max (id <$> todos self) (VInt 0) with
                   | Ok v => as_num v = None
                   | Raise e => e = TypeError
                   end).
    { destruct (todos self) as [|t l]; [by apply Exists_nil in Hex|].
      rewrite fmap_cons. simpl.
      destruct (as_num (id t)) as [x|] eqn:Ht.
      - apply Exists_cons in Hex as [Hex|Hex]; [congruence|].
        apply (max_loop_num_then_not _ _ x); [done|].
        clear -Hex. induction Hex; rewrite fmap_cons; by constructor.
      - by apply max_loop_not_num. }
    destruct (py_max _ _) as [v|e]; simpl; [|by rewrite Hmax].
    by destruct v.
Qed.

(** ** What a sequence of operations keeps *)

Lemma items_of_cons (r : ret) (rs : list ret) :
  items_of (r :: rs) = items_of [r] ++ items_of rs.
Proof. unfold items_of. simpl. by rewrite app_nil_r. Qed.

(** One operation: the ids and timestamps afterwards, in order, are among
    those before, followed by those of the record it returned if it is an
    [Add]. *)
Lemma step_stamps (o : op) (r : ret) (self self' : TodoManager) :
  step o self = Ok (r, self') ->
  stamp <$> todos self' `sublist_of` (stamp <$> todos self) ++ (stamp <$> items_of [r]).
Proof.
  destruct o as [d now|k|k|k d|]; simpl.
  - destruct (add_todo now d self) as [[todo self1]|e] eqn:Hadd; [|done].
    simpl. intros [= <- <-]. unfold add_todo in Hadd.
    destruct (py_max _ _) as [m|]; [|done]. simpl in Hadd.
    destruct (py_add _ _) as [new_id|]; [|done]. simpl in Hadd.
    injection Hadd as <- <-. simpl. by rewrite fmap_app.
  - unfold complete_todo.
    destruct (scan_cases k (todos self)) as [Hnone|(pre & t & post & Hl & Hpre & Ht)].
    + rewrite complete_loop_none by done. intros [= <- <-]. simpl. by rewrite app_nil_r.
    + rewrite Hl, complete_loop_found by done. intros [= <- <-]. simpl.
      by rewrite app_nil_r, !fmap_app, !fmap_cons.
  - unfold remove_todo.
    destruct (scan_cases k (todos self)) as [Hnone|(pre & t & post & Hl & Hpre & Ht)].
    + rewrite remove_loop_none by done. intros [= <- <-]. simpl. by rewrite app_nil_r.
    + rewrite Hl, remove_loop_found by done. intros [= <- <-]. simpl.
      rewrite app_nil_r, !fmap_app, fmap_cons.
      apply sublist_app; [done|]. by apply sublist_cons.
  - unfold edit_todo.
    destruct (scan_cases k (todos self)) as [Hnone|(pre & t & post & Hl & Hpre & Ht)].
    + rewrite edit_loop_none by done. intros [= <- <-]. simpl. by rewrite app_nil_r.
    + rewrite Hl, edit_loop_found by done. intros [= <- <-]. simpl.
      by rewrite app_nil_r, !fmap_app, !fmap_cons.
  - pose proof (clear_completed_todos self) as Htodos.
    destruct (clear_completed self) as [n self1]. intros [= <- <-]. simpl in *.
    rewrite app_nil_r, Htodos. apply fmap_sublist, filter_sublist.
Qed.

(** No operation reorders the collection, changes the id or the timestamp
    of a record, or brings a record in other than by [Add]: after a sequence
    of operations the (id, timestamp) pairs of the collection, in order, are
    among those it started with followed by those of the records the [Add]
    calls returned, in call order. *)
Theorem run_keeps_stamps (ops : list op) (rs : list ret) (self self' : TodoManager) :
  run ops self = Ok (rs, self') ->
  stamp <$> todos self' `sublist_of` (stamp <$> todos self) ++ (stamp <$> items_of rs).
Proof.
  revert rs self. induction ops as [|o ops IH]; intros rs self; simpl.
  - intros [= <- <-]. simpl. by rewrite app_nil_r.
  - destruct (step o self) as [[r self1]|] eqn:Hstep; [|done]. simpl.
    destruct (run ops self1) as [[rs' self2]|] eqn:Hrun; [|done]. simpl.
    intros [= <- <-]. rewrite items_of_cons, fmap_app, app_assoc.
    trans ((stamp <$> todos self1) ++ (stamp <$> items_of rs')); [by apply IH|].
    apply sublist_app; [by apply (step_stamps o)|done].
Qed.

Lemma count_adds_cons (o : op) (ops : list op) :
  count_adds (o :: ops) = count_adds [o] + count_adds ops.
Proof. unfold count_adds. simpl. destruct o; simpl; lia. Qed.

Lemma count_adds_nonneg (ops : list op) : 0 <= count_adds ops.
Proof. unfold count_adds. lia. Qed.

(** One operation on ids between 1 and [c]: the ids afterwards are between
    1 and [c], or [c + 1] if the operation is an [Add]. *)
Lemma step_ids_bound (o : op) (r : ret) (self self' : TodoManager) (ids : list Z) (c : Z) :
  0 <= c ->
  id <$> todos self = VInt <$> ids -> Forall (fun k => 1 <= k <= c) ids ->
  step o self = Ok (r, self') ->
  exists ids', id <$> todos self' = VInt <$> ids'
               /\ Forall (fun k => 1 <= k <= c + count_adds [o]) ids'.
Proof.
  intros Hc Hids Hall.
  assert (Hweak : forall l : list Z, l `sublist_of` ids ->
                    Forall (fun k => 1 <= k <= c + count_adds [o]) l).
  { intros l Hsub. eapply Forall_sublist_of; [exact Hsub|].
    eapply Forall_impl; [exact Hall|]. intros k Hk. simpl in Hk.
    pose proof (count_adds_nonneg [o]). lia. }
  destruct o as [d now|k|k|k d|]; simpl.
  - rewrite (add_todo_ints now d self ids Hids). simpl. intros [= <- <-].
    exists (ids ++ [max_id ids + 1]). simpl. split; [by rewrite !fmap_app, Hids|].
    apply Forall_app. split.
    + eapply Forall_impl; [exact Hall|]. intros k Hk. simpl in Hk.
      unfold count_adds; simpl. lia.
    + repeat constructor; unfold count_adds; simpl;
        destruct (max_id_spec ids) as [[_ ->]|[Hin _]]; try lia;
        rewrite Forall_forall in Hall; apply Hall in Hin; lia.
  - unfold complete_todo.
    destruct (complete_loop k (todos self)) as [l|] eqn:Hloop; intros [= <- <-].
    + exists ids. split; [|by apply Hweak]. simpl.
      by rewrite (complete_loop_ids _ _ _ Hloop).
    + exists ids. split; [done|by apply Hweak].
  - unfold remove_todo.
    destruct (remove_loop k (todos self)) as [l|] eqn:Hloop; intros [= <- <-].
    + destruct (sublist_int_ids l (todos self) (remove_loop_sublist _ _ _ Hloop) ids Hids)
        as (ids' & Hl & Hsub).
      exists ids'. split; [done|by apply Hweak].
    + exists ids. split; [done|by apply Hweak].
  - unfold edit_todo.
    destruct (edit_loop k d (todos self)) as [l|] eqn:Hloop; intros [= <- <-].
    + exists ids. split; [|by apply Hweak]. simpl.
      by rewrite (edit_loop_ids _ _ _ _ Hloop).
    + exists ids. split; [done|by apply Hweak].
  - pose proof (clear_completed_todos self) as Htodos.
    destruct (clear_completed self) as [n self1]. intros [= <- <-]. simpl in Htodos.
    destruct (sublist_int_ids (todos self1) (todos self)) with (ids := ids)
      as (ids' & Hl & Hsub); [rewrite Htodos; apply filter_sublist|done|].
    exists ids'. split; [done|by apply Hweak].
Qed.

Lemma run_ids_bound (ops : list op) (rs : list ret) (self self' : TodoManager)
    (ids : list Z) (c : Z) :
  0 <= c ->
  id <$> todos self = VInt <$> ids -> Forall (fun k => 1 <= k <= c) ids ->
  run ops self = Ok (rs, self') ->
  exists ids', id <$> todos self' = VInt <$> ids'
               /\ Forall (fun k => 1 <= k <= c + count_adds ops) ids'.
Proof.
  revert rs self ids c. induction ops as [|o ops IH]; intros rs self ids c Hc Hids Hall; simpl.
  - intros [= <- <-]. exists ids. split; [done|].
    eapply Forall_impl; [exact Hall|]. intros k Hk. simpl in Hk. unfold count_adds; simpl. lia.
  - destruct (step o self) as [[r self1]|] eqn:Hstep; [|done]. simpl.
    destruct (run ops self1) as [[rs' self2]|] eqn:Hrun; [|done]. simpl.
    intros [= <- <-].
    destruct (step_ids_bound o r self self1 ids c Hc Hids Hall Hstep) as (ids1 & Hids1 & Hall1).
    pose proof (count_adds_nonneg [o]).
    destruct (IH rs' self1 ids1 (c + count_adds [o])) as (ids' & Hids' & Hall');
      [lia|done|done|done|].
    exists ids'. split; [done|]. rewrite count_adds_cons.
    eapply Forall_impl; [exact Hall'|]. intros k Hk. simpl in Hk. lia.
Qed.

(** Starting from the empty collection, every id in the collection is an
    integer between 1 and the number of [Add] calls made so far. *)
Theorem ids_within_adds (ops : list op) (rs : list ret) (self0 self : TodoManager) :
  todos self0 = [] ->
  run ops self0 = Ok (rs, self) ->
  forall t, t ∈ todos self -> exists k, id t = VInt k /\ 1 <= k <= count_adds ops.
Proof.
  intros Hnil Hrun t Ht.
  destruct (run_ids_bound ops rs self0 self [] 0) as (ids & Hids & Hall);
    [lia|by rewrite Hnil|constructor|done|].
  assert (Hin : id t ∈ VInt <$> ids) by (rewrite <- Hids; by apply list_elem_of_fmap_2).
  apply list_elem_of_fmap in Hin as (k & Hk & Hin). exists k. split; [done|].
  rewrite Forall_forall in Hall. apply Hall in Hin. lia.
Qed.

(** ** Asking the user for a value *)

Section console_facts.
Variable strip : string -> string.
Variable py_int : string -> option Z.
Variable is_int : bool.
Variable validator : option (pyval -> bool).

(** [get_valid_input] returns the value of the first line that is
    accepted: the lines before it were all refused, one message was printed
    for each of them, in order, and the inputs after it are left unread.  It
    returns [None] when Ctrl+C comes before any accepted line, after the
    messages for the refused lines and the cancellation message.  It ends
    with [EOFError] when the input ends before either. *)
Theorem get_valid_input_first_accepted (inputs rest : list console_input)
    (r : reply) (msgs : list message) :
  get_valid_input strip py_int is_int validator inputs = (r, msgs, rest) ->
  exists skipped : list (string * message),
    Forall (fun sm => refused strip py_int is_int validator sm.1 sm.2) skipped /\
    match r with
    | Returned v =>
        exists s, inputs = (Line <$> skipped.*1) ++ Line s :: rest /\
                  accepted strip py_int is_int validator s v /\
                  msgs = skipped.*2
    | ReturnedNone =>
        inputs = (Line <$> skipped.*1) ++ CtrlC :: rest /\
        msgs = skipped.*2 ++ [OperationCancelled]
    | RaisedEOFError =>
        inputs = Line <$> skipped.*1 /\ rest = [] /\ msgs = skipped.*2
    end.
Proof using Type.
  revert r msgs rest. induction inputs as [|i inputs IH]; intros r msgs rest; simpl.
  { intros [= <- <- <-]. by exists []. }
  destruct i as [s|]; [|intros [= <- <- <-]; by exists []].
  assert (Hagain : forall m, refused strip py_int is_int validator s m ->
            (let '(r0, ms, rest') := get_valid_input strip py_int is_int validator inputs in
             (r0, m :: ms, rest')) = (r, msgs, rest) ->
            exists skipped : list (string * message),
              Forall (fun sm => refused strip py_int is_int validator sm.1 sm.2) skipped /\
              match r with
              | Returned v =>
                  exists s', Line s :: inputs = (Line <$> skipped.*1) ++ Line s' :: rest /\
                             accepted strip py_int is_int validator s' v /\
                             msgs = skipped.*2
              | ReturnedNone =>
                  Line s :: inputs = (Line <$> skipped.*1) ++ CtrlC :: rest /\
                  msgs = skipped.*2 ++ [OperationCancelled]
              | RaisedEOFError =>
                  Line s :: inputs = Line <$> skipped.*1 /\ rest = [] /\ msgs = skipped.*2
              end).
  { intros m Hm.
    destruct (get_valid_input strip py_int is_int validator inputs) as [[r0 ms] rest'] eqn:Hrec.
    intros [= <- <- <-].
    destruct (IH r0 ms rest' eq_refl) as (skipped & Hall & Hcase).
    exists ((s, m) :: skipped). split; [by constructor|].
    destruct r0 as [v| |].
    - destruct Hcase as (s' & -> & Hacc & ->). by exists s'.
    - by destruct Hcase as [-> ->].
    - by destruct Hcase as (-> & -> & ->). }
  destruct (String.eqb_spec (strip s) "") as [Hempty|Hne].
  { apply Hagain. by constructor. }
  destruct is_int eqn:Hint.
  - destruct (py_int (strip s)) as [n|] eqn:Hn; simpl.
    + destruct validator as [f|] eqn:Hf.
      * destruct (f (VInt n)) eqn:Hfv.
        -- intros [= <- <- <-]. exists []. split; [constructor|]. exists s.
           repeat split; [done|unfold reads; eauto|]. by intros f' [= <-].
        -- apply Hagain. eapply (refused_invalid _ _ _ _ s (VInt n) f); try done.
           unfold reads. eauto.
      * intros [= <- <- <-]. exists []. split; [constructor|]. exists s.
        repeat split; [done|unfold reads; eauto|done].
    + apply Hagain. by constructor.
  - simpl. destruct validator as [f|] eqn:Hf.
    + destruct (f (VStr (strip s))) eqn:Hfv.
      * intros [= <- <- <-]. exists []. split; [constructor|]. exists s.
        repeat split; [done..|]. by intros f' [= <-].
      * apply Hagain. by eapply (refused_invalid _ _ _ _ s (VStr (strip s)) f).
    + intros [= <- <- <-]. exists []. split; [constructor|]. by exists s.
Qed.

(** What [get_valid_input] can return and what it reads: a returned text
    is never empty, a returned value is an integer when one is asked for, and
    the validator holds of it; [None] is returned only after a Ctrl+C; and
    every input read is accounted for by the value returned or by one
    message. *)
Theorem get_valid_input_answer (inputs rest : list console_input)
    (r : reply) (msgs : list message) :
  get_valid_input strip py_int is_int validator inputs = (r, msgs, rest) ->
  match r with
  | Returned v =>
      (if is_int then exists n, v = VInt n else exists s, v = VStr s /\ s <> "")
      /\ (forall f, validator = Some f -> f v = true)
      /\ length inputs = S (length msgs + length rest)
  | ReturnedNone =>
      (CtrlC ∈ inputs) /\ length inputs = (length msgs + length rest)%nat
  | RaisedEOFError =>
      (CtrlC ∉ inputs) /\ rest = [] /\ length inputs = length msgs
  end.
Proof using Type.
  revert r msgs rest. induction inputs as [|i inputs IH]; intros r msgs rest; simpl.
  { intros [= <- <- <-]. split; [apply not_elem_of_nil|done]. }
  destruct i as [s|]; [|intros [= <- <- <-]; split; [left|done]].
  assert (Hagain : forall m,
            (let '(r0, ms, rest') := get_valid_input strip py_int is_int validator inputs in
             (r0, m :: ms, rest')) = (r, msgs, rest) ->
            match r with
            | Returned v =>
                (if is_int then exists n, v = VInt n else exists s, v = VStr s /\ s <> "")
                /\ (forall f, validator = Some f -> f v = true)
                /\ S (length inputs) = S (length msgs + length rest)
            | ReturnedNone =>
                (CtrlC ∈ Line s :: inputs)
                /\ S (length inputs) = (length msgs + length rest)%nat
            | RaisedEOFError =>
                (CtrlC ∉ Line s :: inputs) /\ rest = [] /\ S (length inputs) = length msgs
            end).
  { intros m.
    destruct (get_valid_input strip py_int is_int validator inputs) as [[r0 ms] rest'] eqn:Hrec.
    intros [= <- <- <-]. specialize (IH r0 ms rest' eq_refl).
    destruct r0 as [v| |]; simpl.
    - destruct IH as (Hv & Hf & Hlen). repeat split; [done..|lia].
    - destruct IH as [Hin Hlen]. split; [by right|lia].
    - destruct IH as (Hnotin & -> & Hlen). repeat split; [|lia].
      intros Hin. apply elem_of_cons in Hin as [Heq|Hin]; [discriminate|done]. }
  destruct (String.eqb_spec (strip s) "") as [Hempty|Hne]; [apply Hagain|].
  destruct is_int eqn:Hint.
  - destruct (py_int (strip s)) as [n|] eqn:Hn; simpl; [|apply Hagain].
    destruct validator as [f|] eqn:Hf.
    + destruct (f (VInt n)) eqn:Hfv; [|apply Hagain].
      intros [= <- <- <-]. repeat split; [eauto|by intros f' [= <-]].
    + intros [= <- <- <-]. repeat split; [eauto|done].
  - simpl. destruct validator as [f|] eqn:Hf.
    + destruct (f (VStr (strip s))) eqn:Hfv; [|apply Hagain].
      intros [= <- <- <-]. repeat split; [eauto|by intros f' [= <-]].
    + intros [= <- <- <-]. repeat split; [eauto|done].
Qed.

End console_facts.

(** ** The further statements at the sample data *)

Lemma NoDup_1_2 : NoDup [1; 2].
Proof.
  apply NoDup_cons_2; [|apply NoDup_singleton].
  intros Hin. apply list_elem_of_singleton in Hin. discriminate.
Defined.

(** Removing the record 2, and the absent id 999. *)
Lemma remove_todo_spec_witness :
  (exists pre t post,
      todos sample_manager = pre ++ t :: post /\
      Forall (fun u => py_eq (id u) (VInt 2) = false) pre /\
      py_eq (id t) (VInt 2) = true /\
      remove_todo 2 sample_manager
      = (true, {| todos := pre ++ post; file := Document (dump (pre ++ post)) |}))
  /\ remove_todo 999 sample_manager = (false, sample_manager).
Proof.
  split.
  - apply (proj1 (remove_todo_spec 2 sample_manager)).
    exists done2. split; [right; left | reflexivity].
  - apply (proj2 (remove_todo_spec 999 sample_manager)).
    intros t Ht. simpl in Ht. rewrite !elem_of_cons in Ht.
    destruct Ht as [->|[->|Ht]]; [reflexivity..|]. by apply elem_of_nil in Ht.
Defined.

(** Looking up the record 2, and the absent id 999. *)
Lemma get_todo_spec_witness :
  get_todo 2 sample_manager = Some done2 /\ get_todo 999 sample_manager = None.
Proof.
  split.
  - apply (proj1 (get_todo_spec 2 sample_manager) [task1] done2 []); [reflexivity| |reflexivity].
    apply Forall_cons_2; [reflexivity|apply Forall_nil_2].
  - apply (proj2 (get_todo_spec 999 sample_manager)).
    intros t Ht. simpl in Ht. rewrite !elem_of_cons in Ht.
    destruct Ht as [->|[->|Ht]]; [reflexivity..|]. by apply elem_of_nil in Ht.
Defined.

(** Removing the record 2 of the sample collection. *)
Lemma remove_todo_then_absent_witness :
  get_todo 2 (saved [task1]) = None
  /\ remove_todo 2 (saved [task1]) = (false, saved [task1])
  /\ S (length (todos (saved [task1]))) = length (todos sample_manager).
Proof.
  apply (remove_todo_then_absent 2 sample_manager (saved [task1]) [1; 2]);
    [reflexivity | exact NoDup_1_2 | vm_compute; reflexivity].
Defined.

(** Adding to the sample collection. *)
Lemma add_todo_then_get_witness :
  exists n todo self',
    add_todo t0 "Read book" sample_manager = Ok (todo, self') /\
    id todo = VInt n /\
    get_todo n sample_manager = None /\
    get_todo n self' = Some todo /\
    forall k, k <> n -> get_todo k self' = get_todo k sample_manager.
Proof. apply (add_todo_then_get t0 "Read book" sample_manager [1; 2]). reflexivity. Defined.

(** Completing the record 1 of the sample collection. *)
Lemma complete_todo_then_get_witness :
  exists t,
    get_todo 1 sample_manager = Some t /\
    get_todo 1 (saved [set_completed task1 (VBool true); done2])
    = Some (set_completed t (VBool true)) /\
    complete_todo 1 (saved [set_completed task1 (VBool true); done2])
    = (true, saved [set_completed task1 (VBool true); done2]).
Proof.
  apply (complete_todo_then_get 1 sample_manager). vm_compute; reflexivity.
Defined.

(** Editing the record 1 of the sample collection. *)
Lemma edit_todo_then_get_witness :
  exists t,
    get_todo 1 sample_manager = Some t /\
    get_todo 1 (saved [set_description task1 (VStr "Buy tea"); done2])
    = Some (set_description t (VStr "Buy tea")) /\
    id <$> todos (saved [set_description task1 (VStr "Buy tea"); done2])
    = id <$> todos sample_manager /\
    completed <$> todos (saved [set_description task1 (VStr "Buy tea"); done2])
    = completed <$> todos sample_manager /\
    created_at <$> todos (saved [set_description task1 (VStr "Buy tea"); done2])
    = created_at <$> todos sample_manager.
Proof.
  apply (edit_todo_then_get 1 "Buy tea" sample_manager). vm_compute; reflexivity.
Defined.

(** After the record 1 of two pending records is completed, the record
    still pending does not have the id 1. *)
Lemma complete_todo_not_pending_witness :
  py_eq (id task2) (VInt 1) = false.
Proof.
  apply (complete_todo_not_pending 1 (saved [task1; task2])
           (saved [set_completed task1 (VBool true); task2]) [1; 2]);
    [reflexivity | exact NoDup_1_2 | vm_compute; reflexivity | left].
Defined.

(** Removing the record 2 of the sample collection takes one record away. *)
Lemma step_size_witness :
  Z.of_nat (length (todos (saved [task1])))
  = Z.of_nat (length (todos sample_manager)) + size_change (Remove 2) (RBool true).
Proof.
  apply (step_size (Remove 2) (RBool true) sample_manager (saved [task1])).
  vm_compute; reflexivity.
Defined.

(** The sample collection, saved and loaded. *)
Lemma save_then_load_witness :
  TodoManager_init (fun _ => t0) (file (save_todos sample_manager))
  = Ok (save_todos sample_manager).
Proof.
  apply (save_then_load (fun _ => t0) sample_manager).
  apply Forall_cons_2; [reflexivity|]. apply Forall_cons_2; [reflexivity|apply Forall_nil_2].
Defined.

Lemma sample_ops_clock_read :
  Forall clock_read [Add "Buy milk" t0; Add "Walk dog" t0; Remove 2].
Proof.
  apply Forall_cons_2; [discriminate|]. apply Forall_cons_2; [discriminate|].
  apply Forall_cons_2; [exact I|apply Forall_nil_2].
Defined.

(** Two Adds and a Remove on a manager constructed without a file. *)
Lemma reload_after_run_witness :
  saved [task1] = empty_manager
  \/ forall clock', TodoManager_init clock' (file (saved [task1])) = Ok (saved [task1]).
Proof.
  apply (reload_after_run (fun _ => t0) Missing
           [Add "Buy milk" t0; Add "Walk dog" t0; Remove 2]
           [RItem task1; RItem task2; RBool true] empty_manager (saved [task1]));
    [intros _; discriminate | exact sample_ops_clock_read | reflexivity
    | vm_compute; reflexivity].
Defined.

(** Two Adds and a Remove on the empty collection. *)
Lemma run_keeps_stamps_witness :
  stamp <$> todos (saved [task1])
  `sublist_of` (stamp <$> todos empty_manager)
               ++ (stamp <$> items_of [RItem task1; RItem task2; RBool true]).
Proof.
  apply (run_keeps_stamps [Add "Buy milk" t0; Add "Walk dog" t0; Remove 2]).
  vm_compute; reflexivity.
Defined.

(** Two Adds and a Remove on the empty collection. *)
Lemma ids_within_adds_witness :
  exists k, id task1 = VInt k
            /\ 1 <= k <= count_adds [Add "Buy milk" t0; Add "Walk dog" t0; Remove 2].
Proof.
  apply (ids_within_adds [Add "Buy milk" t0; Add "Walk dog" t0; Remove 2]
           [RItem task1; RItem task2; RBool true] empty_manager (saved [task1]));
    [reflexivity | vm_compute; reflexivity | left].
Defined.

(** The serialization of [task1]. *)
Lemma to_dict_injective_witness :
  dom (to_dict task1) = list_to_set required_keys /\ task1 = task1.
Proof.
  split.
  - apply (proj1 (to_dict_injective task1)).
  - apply (proj1 (proj2 (to_dict_injective task1)) task1). reflexivity.
Defined.

(** The documents [5], ["abc"] and [[task1, 5]]. *)
Lemma load_todos_type_error_witness :
  TodoManager_init (fun _ => t0) (Document (VInt 5)) = Raise TypeError
  /\ TodoManager_init (fun _ => t0) (Document (VStr "abc")) = Raise TypeError
  /\ TodoManager_init (fun _ => t0)
       (Document (VList ((VDict <$> [to_dict task1]) ++ VInt 5 :: [])))
     = Raise TypeError.
Proof.
  split; [|split].
  - apply (proj1 (proj2 (proj2 (load_todos_type_error (fun _ => t0))))).
    right; right; left. by exists 5.
  - apply (proj1 (proj2 (proj2 (load_todos_type_error (fun _ => t0))))).
    right; right; right; left. exists "abc"%string. split; [reflexivity|discriminate].
  - apply (proj2 (proj2 (proj2 (load_todos_type_error (fun _ => t0))))); [|discriminate].
    apply Forall_cons_2; [|apply Forall_nil_2].
    intros k Hk. unfold required_keys in Hk. rewrite !elem_of_cons in Hk.
    destruct Hk as [->|[->|[->|[->|Hk]]]];
      [eexists; reflexivity..|by apply elem_of_nil in Hk].
Defined.

(** A collection with the ids [True] and 3, and one with the id ["abc"]. *)
Lemma add_todo_type_error_witness :
  (exists n todo self',
      max_existing_id_or_0 [1; 3] n /\
      add_todo t0 "Read book" (saved [task_true; task3]) = Ok (todo, self')
      /\ id todo = VInt (n + 1))
  /\ add_todo t0 "Read book" (saved [task1; task_abc]) = Raise TypeError.
Proof.
  split.
  - apply (proj1 (add_todo_type_error t0 "Read book" _) [1; 3]). reflexivity.
  - apply (proj2 (add_todo_type_error t0 "Read book" _)).
    apply Exists_cons_tl, Exists_cons_hd. reflexivity.
Defined.

(** A blank line, a line that is not a number, the number 7 and one more
    line, when an integer is asked for without a validator. *)
Lemma get_valid_input_first_accepted_witness :
  exists skipped : list (string * message),
    Forall (fun sm => refused sample_strip sample_int true None sm.1 sm.2) skipped /\
    exists s, [Line ""; Line "abc"; Line "7"; Line "x"]
              = (Line <$> skipped.*1) ++ Line s :: [Line "x"] /\
              accepted sample_strip sample_int true None s (VInt 7) /\
              [EmptyInput; NotANumber] = skipped.*2.
Proof.
  apply (get_valid_input_first_accepted sample_strip sample_int true None
           [Line ""; Line "abc"; Line "7"; Line "x"] [Line "x"]
           (Returned (VInt 7)) [EmptyInput; NotANumber]).
  reflexivity.
Defined.

(** A blank line and then Ctrl+C, when a text is asked for. *)
Lemma get_valid_input_answer_witness :
  (CtrlC ∈ [Line ""; CtrlC; Line "x"])
  /\ length [Line ""; CtrlC; Line "x"]
     = (length [EmptyInput; OperationCancelled] + length [Line "x"])%nat.
Proof.
  apply (get_valid_input_answer sample_strip sample_int false None
           [Line ""; CtrlC; Line "x"] [Line "x"] ReturnedNone
           [EmptyInput; OperationCancelled]).
  reflexivity.
Defined.
